(** * Gamesir-T1d to DS4 bridge: the frame decoder and change detector

    A shallow embedding of [gamesir_ds4_driver_updated.py]: the constants,
    the class [DS4] with its methods [connect], [get_state], [parse_state],
    [simulate_input] and [__str__], and the loop of [main].

    - A [bytearray] is a [list byte]; [data[i]] on it is [nth_error], which
      raises [IndexError] out of range, and yields an unbounded Python [int],
      here a [Z].
    - The methods mutate [self] and may raise half-way: a computation is a
      function from the object to the object it leaves behind and either a
      value or the exception raised.  Assignments made before a [raise]
      persist, as they do in Python.
    - The virtual gamepad is an external collaborator: [simulate_input] is
      modelled by the sequence of calls it makes on it.
    - [v / 512] on an [int] is Python's true division.  The quotient of an
      integer below 2^53 by a power of two is exact in binary64, so it is
      modelled by the rational [v / 512]. *)

From Stdlib Require Import ZArith List Lia Bool QArith.
From Stdlib.Strings Require Import Byte.
From Stdlib Require String Ascii DecimalString DecimalZ.
Import ListNotations.
Local Open Scope Z_scope.

(** ** Constants *)

(** [class DS4_BUTTONS(IntFlag)] *)
Inductive DS4_BUTTONS : Type :=
| DS4_BUTTON_THUMB_RIGHT
| DS4_BUTTON_THUMB_LEFT
| DS4_BUTTON_OPTIONS
| DS4_BUTTON_SHARE
| DS4_BUTTON_TRIGGER_RIGHT
| DS4_BUTTON_TRIGGER_LEFT
| DS4_BUTTON_SHOULDER_RIGHT
| DS4_BUTTON_SHOULDER_LEFT
| DS4_BUTTON_TRIANGLE
| DS4_BUTTON_CIRCLE
| DS4_BUTTON_CROSS
| DS4_BUTTON_SQUARE.

Definition DS4_BUTTONS_value (b : DS4_BUTTONS) : Z :=
  match b with
  | DS4_BUTTON_THUMB_RIGHT => Z.shiftl 1 15
  | DS4_BUTTON_THUMB_LEFT => Z.shiftl 1 14
  | DS4_BUTTON_OPTIONS => Z.shiftl 1 13
  | DS4_BUTTON_SHARE => Z.shiftl 1 12
  | DS4_BUTTON_TRIGGER_RIGHT => Z.shiftl 1 11
  | DS4_BUTTON_TRIGGER_LEFT => Z.shiftl 1 10
  | DS4_BUTTON_SHOULDER_RIGHT => Z.shiftl 1 9
  | DS4_BUTTON_SHOULDER_LEFT => Z.shiftl 1 8
  | DS4_BUTTON_TRIANGLE => Z.shiftl 1 7
  | DS4_BUTTON_CIRCLE => Z.shiftl 1 6
  | DS4_BUTTON_CROSS => Z.shiftl 1 5
  | DS4_BUTTON_SQUARE => Z.shiftl 1 4
  end.

Definition STICK_MIN : Z := -512.
Definition STICK_MAX : Z := 512.

(** ** The object *)

Definition bytearray : Type := list byte.

(** [_previous_state] starts as the [str] [""] and later holds the last
    [bytearray] read. *)
Inductive previous : Type :=
| EmptyStr
| Bytes (data : bytearray).

Record DS4 : Type := mkDS4 {
  _previous_state : previous;
  _state_vec : option bytearray;   (* unset until the first [get_state] *)
  L1 : Z; L2 : Z; R1 : Z; R2 : Z;
  Triangle : Z; Circle : Z; Cross : Z; Square : Z;
  Share : Z; Options : Z;
  LX : Z; LY : Z; RX : Z; RY : Z
}.

(** [DS4.__init__] over the class attribute [_previous_state = ""]. *)
Definition DS4_init : DS4 :=
  mkDS4 EmptyStr None 0 0 0 0 0 0 0 0 0 0 0 0 0 0.

(** The decoded controller fields of an object, in [__str__] order. *)
Definition fields (s : DS4) : list Z :=
  [L1 s; L2 s; R1 s; R2 s; Cross s; Circle s; Square s; Triangle s;
   Share s; Options s; LX s; LY s; RX s; RY s].

(** ** Computations on the object *)

Inductive exn : Type :=
| IndexError
| AttributeError.

Inductive result (A : Type) : Type :=
| Ok (a : A)
| Raise (e : exn).
Arguments Ok {A} a.
Arguments Raise {A} e.

Definition M (A : Type) : Type := DS4 -> DS4 * result A.

Definition ret {A} (a : A) : M A := fun s => (s, Ok a).

Definition raise {A} (e : exn) : M A := fun s => (s, Raise e).

Definition bind {A B} (m : M A) (k : A -> M B) : M B :=
  fun s =>
    match m s with
    | (s', Ok a) => k a s'
    | (s', Raise e) => (s', Raise e)
    end.

Declare Scope py_scope.
Delimit Scope py_scope with py.
Notation "x <- m ;; k" := (bind m (fun x => k))
  (at level 61, m at next level, right associativity) : py_scope.
Notation "m ;; k" := (bind m (fun _ => k))
  (at level 61, right associativity) : py_scope.
Local Open Scope py_scope.

Definition getattr {A} (f : DS4 -> A) : M A := fun s => (s, Ok (f s)).

Definition setattr (upd : DS4 -> DS4) : M unit := fun s => (upd s, Ok tt).

(** Attribute assignments [self.X = v]. *)
Definition set_previous_state (v : previous) (s : DS4) : DS4 :=
  mkDS4 v (_state_vec s) (L1 s) (L2 s) (R1 s) (R2 s) (Triangle s) (Circle s)
        (Cross s) (Square s) (Share s) (Options s) (LX s) (LY s) (RX s) (RY s).
Definition set_state_vec (v : bytearray) (s : DS4) : DS4 :=
  mkDS4 (_previous_state s) (Some v) (L1 s) (L2 s) (R1 s) (R2 s) (Triangle s)
        (Circle s) (Cross s) (Square s) (Share s) (Options s) (LX s) (LY s)
        (RX s) (RY s).
Definition set_L1 (v : Z) (s : DS4) : DS4 :=
  mkDS4 (_previous_state s) (_state_vec s) v (L2 s) (R1 s) (R2 s) (Triangle s)
        (Circle s) (Cross s) (Square s) (Share s) (Options s) (LX s) (LY s)
        (RX s) (RY s).
Definition set_L2 (v : Z) (s : DS4) : DS4 :=
  mkDS4 (_previous_state s) (_state_vec s) (L1 s) v (R1 s) (R2 s) (Triangle s)
        (Circle s) (Cross s) (Square s) (Share s) (Options s) (LX s) (LY s)
        (RX s) (RY s).
Definition set_R1 (v : Z) (s : DS4) : DS4 :=
  mkDS4 (_previous_state s) (_state_vec s) (L1 s) (L2 s) v (R2 s) (Triangle s)
        (Circle s) (Cross s) (Square s) (Share s) (Options s) (LX s) (LY s)
        (RX s) (RY s).
Definition set_R2 (v : Z) (s : DS4) : DS4 :=
  mkDS4 (_previous_state s) (_state_vec s) (L1 s) (L2 s) (R1 s) v (Triangle s)
        (Circle s) (Cross s) (Square s) (Share s) (Options s) (LX s) (LY s)
        (RX s) (RY s).
Definition set_Triangle (v : Z) (s : DS4) : DS4 :=
  mkDS4 (_previous_state s) (_state_vec s) (L1 s) (L2 s) (R1 s) (R2 s) v
        (Circle s) (Cross s) (Square s) (Share s) (Options s) (LX s) (LY s)
        (RX s) (RY s).
Definition set_Circle (v : Z) (s : DS4) : DS4 :=
  mkDS4 (_previous_state s) (_state_vec s) (L1 s) (L2 s) (R1 s) (R2 s)
        (Triangle s) v (Cross s) (Square s) (Share s) (Options s) (LX s)
        (LY s) (RX s) (RY s).
Definition set_Cross (v : Z) (s : DS4) : DS4 :=
  mkDS4 (_previous_state s) (_state_vec s) (L1 s) (L2 s) (R1 s) (R2 s)
        (Triangle s) (Circle s) v (Square s) (Share s) (Options s) (LX s)
        (LY s) (RX s) (RY s).
Definition set_Square (v : Z) (s : DS4) : DS4 :=
  mkDS4 (_previous_state s) (_state_vec s) (L1 s) (L2 s) (R1 s) (R2 s)
        (Triangle s) (Circle s) (Cross s) v (Share s) (Options s) (LX s)
        (LY s) (RX s) (RY s).
Definition set_Share (v : Z) (s : DS4) : DS4 :=
  mkDS4 (_previous_state s) (_state_vec s) (L1 s) (L2 s) (R1 s) (R2 s)
        (Triangle s) (Circle s) (Cross s) (Square s) v (Options s) (LX s)
        (LY s) (RX s) (RY s).
Definition set_Options (v : Z) (s : DS4) : DS4 :=
  mkDS4 (_previous_state s) (_state_vec s) (L1 s) (L2 s) (R1 s) (R2 s)
        (Triangle s) (Circle s) (Cross s) (Square s) (Share s) v (LX s)
        (LY s) (RX s) (RY s).
Definition set_LX (v : Z) (s : DS4) : DS4 :=
  mkDS4 (_previous_state s) (_state_vec s) (L1 s) (L2 s) (R1 s) (R2 s)
        (Triangle s) (Circle s) (Cross s) (Square s) (Share s) (Options s) v
        (LY s) (RX s) (RY s).
Definition set_LY (v : Z) (s : DS4) : DS4 :=
  mkDS4 (_previous_state s) (_state_vec s) (L1 s) (L2 s) (R1 s) (R2 s)
        (Triangle s) (Circle s) (Cross s) (Square s) (Share s) (Options s)
        (LX s) v (RX s) (RY s).
Definition set_RX (v : Z) (s : DS4) : DS4 :=
  mkDS4 (_previous_state s) (_state_vec s) (L1 s) (L2 s) (R1 s) (R2 s)
        (Triangle s) (Circle s) (Cross s) (Square s) (Share s) (Options s)
        (LX s) (LY s) v (RY s).
Definition set_RY (v : Z) (s : DS4) : DS4 :=
  mkDS4 (_previous_state s) (_state_vec s) (L1 s) (L2 s) (R1 s) (R2 s)
        (Triangle s) (Circle s) (Cross s) (Square s) (Share s) (Options s)
        (LX s) (LY s) (RX s) v.

(** ** Python primitives *)

(** [data[i]] for a constant non-negative [i]. *)
Definition getitem (data : bytearray) (i : nat) : M Z :=
  match nth_error data i with
  | Some b => ret (Z.of_N (Byte.to_N b))
  | None => raise IndexError
  end.

(** [int(bool(x))] *)
Definition int_bool (x : Z) : Z := if Z.eqb x 0 then 0 else 1.

(** Truthiness of an [int], as tested by [if x:]. *)
Definition truthy (x : Z) : bool := negb (Z.eqb x 0).

Definition bytearray_eqb (a b : bytearray) : bool :=
  if list_eq_dec Byte.byte_eq_dec a b then true else false.

(** [prev != vec] with [vec] a [bytearray]: a [str] never equals a
    [bytearray]; two [bytearray]s are compared byte by byte. *)
Definition py_ne (prev : previous) (vec : bytearray) : bool :=
  match prev with
  | EmptyStr => true
  | Bytes p => negb (bytearray_eqb p vec)
  end.

(** ** DS4.parse_state *)

Definition parse_state : M unit :=
  sv <- getattr _state_vec ;;
  match sv with
  | None => raise AttributeError
  | Some data =>
    d9 <- getitem data 9 ;; setattr (set_L1 (int_bool (Z.land d9 0x40))) ;;
    d7 <- getitem data 7 ;; setattr (set_L2 d7) ;;
    d9 <- getitem data 9 ;; setattr (set_R1 (int_bool (Z.land d9 0x80))) ;;
    d8 <- getitem data 8 ;; setattr (set_R2 d8) ;;
    d9 <- getitem data 9 ;; setattr (set_Cross (int_bool (Z.land d9 0x01))) ;;
    d9 <- getitem data 9 ;; setattr (set_Circle (int_bool (Z.land d9 0x02))) ;;
    d9 <- getitem data 9 ;; setattr (set_Square (int_bool (Z.land d9 0x08))) ;;
    d9 <- getitem data 9 ;; setattr (set_Triangle (int_bool (Z.land d9 0x10))) ;;
    d10 <- getitem data 10 ;; setattr (set_Share (int_bool (Z.land d10 0x04))) ;;
    d10 <- getitem data 10 ;; setattr (set_Options (int_bool (Z.land d10 0x08))) ;;
    d2 <- getitem data 2 ;; d3 <- getitem data 3 ;;
    setattr (set_LX (Z.lor (Z.shiftl d2 2) (Z.shiftr d3 6))) ;;
    d3 <- getitem data 3 ;; d4 <- getitem data 4 ;;
    setattr (set_LY (Z.shiftl (Z.land d3 0x3f) 4 + Z.shiftr d4 4)) ;;
    d4 <- getitem data 4 ;; d5 <- getitem data 5 ;;
    setattr (set_RX (Z.lor (Z.shiftl (Z.land d4 0xf) 6) (Z.shiftr d5 2))) ;;
    d5 <- getitem data 5 ;; d6 <- getitem data 6 ;;
    setattr (set_RY (Z.shiftl (Z.land d5 0x3) 8 + d6))
  end.

(** ** DS4.get_state

    [frame] is what [await self._read()] returned. *)
Definition get_state (frame : bytearray) : M bool :=
  setattr (set_state_vec frame) ;;
  b0 <- getitem frame 0 ;;
  if Z.eqb b0 0xc9 then ret false
  else
    prev <- getattr _previous_state ;;
    if py_ne prev frame then
      setattr (set_previous_state (Bytes frame)) ;;
      parse_state ;;
      ret true
    else ret false.

(** ** DS4.simulate_input *)

(** The calls made on [self.gamepad]. *)
Inductive directive : Type :=
| press_button (button : DS4_BUTTONS)
| left_joystick_float (x_value_float y_value_float : Q)
| right_joystick_float (x_value_float y_value_float : Q)
| left_trigger (value : Z)     (* offered by the gamepad, never called here *)
| right_trigger (value : Z)    (* offered by the gamepad, never called here *)
| update.

(** [a / b] on two [int]s: true division. *)
Definition true_div (a b : Z) : Q := (inject_Z a / inject_Z b)%Q.

Definition when_pressed (flag : Z) (button : DS4_BUTTONS) : list directive :=
  if truthy flag then [press_button button] else [].

Definition simulate_input (s : DS4) : list directive :=
  when_pressed (Cross s) DS4_BUTTON_CROSS ++
  when_pressed (Circle s) DS4_BUTTON_CIRCLE ++
  when_pressed (Square s) DS4_BUTTON_SQUARE ++
  when_pressed (Triangle s) DS4_BUTTON_TRIANGLE ++
  when_pressed (Share s) DS4_BUTTON_SHARE ++
  when_pressed (Options s) DS4_BUTTON_OPTIONS ++
  [left_joystick_float (true_div (LX s) 512) (true_div (LY s) 512);
   right_joystick_float (true_div (RX s) 512) (true_div (RY s) 512);
   update].

(** One turn of the loop in [main]: read, and emit when the state changed. *)
Definition main_step (frame : bytearray) : M (list directive) :=
  changed <- get_state frame ;;
  if (changed : bool) then s <- getattr (fun s => s) ;; ret (simulate_input s)
  else ret [].

(** ** Closed form of a successful parse *)

(** The [int] read at index [i] of a frame known to be long enough. *)
Definition byte_at (data : bytearray) (i : nat) : Z :=
  Z.of_N (Byte.to_N (nth i data x00)).

(** The object [parse_state] leaves behind when every read succeeds;
    [parse_state_decoded] below proves that it does. *)
Definition decoded (data : bytearray) (s : DS4) : DS4 :=
  mkDS4 (_previous_state s) (_state_vec s)
    (int_bool (Z.land (byte_at data 9) 0x40))
    (byte_at data 7)
    (int_bool (Z.land (byte_at data 9) 0x80))
    (byte_at data 8)
    (int_bool (Z.land (byte_at data 9) 0x10))
    (int_bool (Z.land (byte_at data 9) 0x02))
    (int_bool (Z.land (byte_at data 9) 0x01))
    (int_bool (Z.land (byte_at data 9) 0x08))
    (int_bool (Z.land (byte_at data 10) 0x04))
    (int_bool (Z.land (byte_at data 10) 0x08))
    (Z.lor (Z.shiftl (byte_at data 2) 2) (Z.shiftr (byte_at data 3) 6))
    (Z.shiftl (Z.land (byte_at data 3) 0x3f) 4 + Z.shiftr (byte_at data 4) 4)
    (Z.lor (Z.shiftl (Z.land (byte_at data 4) 0xf) 6)
           (Z.shiftr (byte_at data 5) 2))
    (Z.shiftl (Z.land (byte_at data 5) 0x3) 8 + byte_at data 6).

(** ** DS4.connect

    Opening the BLE link is the transport's business; what remains is the
    first [get_state], whose result is thrown away.  [frame] is what its
    read returned. *)
Definition connect (frame : bytearray) : M unit :=
  get_state frame ;; ret tt.

(** ** The loop of [main]

    [while True] has no exit of its own.  A run is followed over the frames
    that successive reads return: it ends either waiting for the next read
    ([None]) or with the exception that left the loop.  The result is the
    object, the calls made on the gamepad, and that outcome.  What the loop
    prints is not part of it. *)
Fixpoint main_loop (reads : list bytearray) (s : DS4)
  : DS4 * list directive * option exn :=
  match reads with
  | [] => (s, [], None)
  | frame :: rest =>
    match main_step frame s with
    | (s', Ok ds) =>
      let '(s'', trace, e) := main_loop rest s' in (s'', ds ++ trace, e)
    | (s', Raise e) => (s', [], Some e)
    end
  end.

(** [main]: a fresh object, [connect] on the first frame, then the loop. *)
Definition main (first : bytearray) (reads : list bytearray)
  : DS4 * list directive * option exn :=
  match connect first DS4_init with
  | (s, Ok _) => main_loop reads s
  | (s, Raise e) => (s, [], Some e)
  end.

(** ** Vocabulary of the statements *)

(** The frame starts with the sentinel. *)
Definition is_garbage (frame : bytearray) : bool :=
  match frame with
  | b0 :: _ => Z.eqb (Z.of_N (Byte.to_N b0)) 0xc9
  | [] => false
  end.

(** A frame [get_state] gets through without raising, whatever the object:
    garbage, or long enough for [parse_state]. *)
Definition readable (frame : bytearray) : Prop :=
  is_garbage frame = true \/ (11 <= length frame)%nat.

(** The frames of a stream that are reported as changes from a baseline:
    garbage is skipped, and so is a frame equal to the last kept one. *)
Fixpoint changed_frames (prev : previous) (reads : list bytearray)
  : list bytearray :=
  match reads with
  | [] => []
  | frame :: rest =>
    if is_garbage frame then changed_frames prev rest
    else if py_ne prev frame then frame :: changed_frames (Bytes frame) rest
    else changed_frames prev rest
  end.

(** The ranges the field comments give to buttons and triggers, and the
    ten-bit range of the sticks. *)
Definition fields_in_range (s : DS4) : Prop :=
  Forall (fun v => v = 0 \/ v = 1)
    [L1 s; R1 s; Cross s; Circle s; Square s; Triangle s; Share s; Options s] /\
  Forall (fun v => 0 <= v <= 255) [L2 s; R2 s] /\
  Forall (fun v => 0 <= v <= 1023) [LX s; LY s; RX s; RY s].

(** The baseline is still the initial [""], or a frame that is not empty and
    not garbage. *)
Definition baseline_ok (s : DS4) : Prop :=
  match _previous_state s with
  | EmptyStr => True
  | Bytes p => p <> [] /\ is_garbage p = false
  end.

(** A stick call whose two coordinates lie in [0, 2). *)
Definition stick_in_range (d : directive) : Prop :=
  match d with
  | left_joystick_float x y | right_joystick_float x y =>
    (0 <= x /\ x < 2 /\ 0 <= y /\ y < 2)%Q
  | _ => True
  end.

(** What [parse_state] leaves behind on a frame of exactly ten bytes: the
    eight assignments before the read of [data[10]]. *)
Definition half_decoded (data : bytearray) (s : DS4) : DS4 :=
  mkDS4 (_previous_state s) (_state_vec s)
    (int_bool (Z.land (byte_at data 9) 0x40))
    (byte_at data 7)
    (int_bool (Z.land (byte_at data 9) 0x80))
    (byte_at data 8)
    (int_bool (Z.land (byte_at data 9) 0x10))
    (int_bool (Z.land (byte_at data 9) 0x02))
    (int_bool (Z.land (byte_at data 9) 0x01))
    (int_bool (Z.land (byte_at data 9) 0x08))
    (Share s) (Options s) (LX s) (LY s) (RX s) (RY s).

(** ** DS4.__str__ *)

Module Printing.
Import String Ascii.
Local Open Scope string_scope.

(** The line feed written [\n] in the source. *)
Definition LF : Ascii.ascii := "010"%char.

(** [str] of an [int], which is what [{}] formats it to: decimal digits,
    with a leading minus sign when negative. *)
Definition str_int (z : Z) : string :=
  DecimalString.NilZero.string_of_int (Z.to_int z).

Definition __str__ (s : DS4) : string :=
  "L1: " ++ str_int (L1 s) ++ String LF (
  "L2: " ++ str_int (L2 s) ++ String LF (
  "R1: " ++ str_int (R1 s) ++ String LF (
  "R2: " ++ str_int (R2 s) ++ String LF (
  "Cross: " ++ str_int (Cross s) ++ String LF (
  "Circle: " ++ str_int (Circle s) ++ String LF (
  "Square: " ++ str_int (Square s) ++ String LF (
  "Triangle: " ++ str_int (Triangle s) ++ String LF (
  "Share: " ++ str_int (Share s) ++ String LF (
  "Options: " ++ str_int (Options s) ++ String LF (
  "LX: " ++ str_int (LX s) ++ String LF (
  "LY: " ++ str_int (LY s) ++ String LF (
  "RX: " ++ str_int (RX s) ++ String LF (
  "RY: " ++ str_int (RY s)))))))))))))).

(** No character of the string is a line feed. *)
Fixpoint one_line (x : string) : bool :=
  match x with
  | EmptyString => true
  | String c r => negb (Ascii.eqb c LF) && one_line r
  end.

End Printing.

(** ** The frames used as concrete inputs *)

(** Twenty bytes, all zero but the first ([0xc8], as the device sends). *)
Definition idle_frame : bytearray :=
  [xc8; x00; x00; x00; x00; x00; x00; x00; x00; x00;
   x00; x00; x00; x00; x00; x00; x00; x00; x00; x00].

(** The idle frame with the sentinel as its first byte. *)
Definition garbage_frame : bytearray := xc9 :: tl idle_frame.

(** The idle frame with another last byte: the counter the device bumps. *)
Definition idle_frame' : bytearray :=
  [xc8; x00; x00; x00; x00; x00; x00; x00; x00; x00;
   x00; x00; x00; x00; x00; x00; x00; x00; x00; x01].

(** Left stick pushed fully along X: byte 2 is [0xff]. *)
Definition stick_frame : bytearray :=
  [xc8; x00; xff; x00; x00; x00; x00; x00; x00; x00;
   x00; x00; x00; x00; x00; x00; x00; x00; x00; x00].

(** L1 held, L2 fully pressed: byte 9 is [0x40], byte 7 is [0xff]. *)
Definition shoulder_frame : bytearray :=
  [xc8; x00; x00; x00; x00; x00; x00; xff; x00; x40;
   x00; x00; x00; x00; x00; x00; x00; x00; x00; x00].

(** ** Basic facts *)

Lemma bytearray_eqb_eq (a b : bytearray) : bytearray_eqb a b = true <-> a = b.
Proof.
  unfold bytearray_eqb. destruct (list_eq_dec Byte.byte_eq_dec a b); split;
    intros; congruence.
Qed.

Lemma bytearray_eqb_refl (a : bytearray) : bytearray_eqb a a = true.
Proof. now apply bytearray_eqb_eq. Qed.

Lemma py_ne_true (prev : previous) (vec : bytearray) :
  py_ne prev vec = true <-> prev <> Bytes vec.
Proof.
  destruct prev as [|p]; simpl.
  - split; [discriminate | reflexivity].
  - rewrite negb_true_iff. split.
    + intros E H. injection H as ->. rewrite bytearray_eqb_refl in E.
      discriminate.
    + intros H. destruct (bytearray_eqb p vec) eqn:E; [|reflexivity].
      apply bytearray_eqb_eq in E. subst. now elim H.
Qed.

Lemma py_ne_false (prev : previous) (vec : bytearray) :
  py_ne prev vec = false <-> prev = Bytes vec.
Proof.
  destruct prev as [|p]; simpl.
  - split; discriminate.
  - rewrite negb_false_iff, bytearray_eqb_eq. split; congruence.
Qed.

Lemma byte_at_range (data : bytearray) (i : nat) : 0 <= byte_at data i <= 255.
Proof.
  unfold byte_at. pose proof (Byte.to_N_bounded (nth i data x00)). lia.
Qed.

(** A frame of at least eleven bytes, spelled out. *)
Lemma long_frame_inv (data : bytearray) :
  (11 <= length data)%nat ->
  exists b0 b1 b2 b3 b4 b5 b6 b7 b8 b9 b10 rest,
    data = b0 :: b1 :: b2 :: b3 :: b4 :: b5 :: b6 :: b7 :: b8 :: b9 :: b10
              :: rest.
Proof.
  intros H.
  do 11 (destruct data as [|? data]; [simpl in H; lia|]).
  repeat eexists.
Qed.

Lemma parse_state_decoded (s : DS4) (data : bytearray) :
  _state_vec s = Some data ->
  (11 <= length data)%nat ->
  parse_state s = (decoded data s, Ok tt).
Proof.
  intros Hv Hl.
  destruct (long_frame_inv data Hl)
    as (b0 & b1 & b2 & b3 & b4 & b5 & b6 & b7 & b8 & b9 & b10 & rest & ->).
  unfold parse_state, bind, getattr. rewrite Hv.
  destruct s; simpl in Hv; subst. reflexivity.
Qed.

Lemma sentinel_test (b : byte) :
  Z.eqb (Z.of_N (Byte.to_N b)) 0xc9 = true <-> b = xc9.
Proof. destruct b; simpl; split; (reflexivity || discriminate). Qed.

(** [get_state] after its first read succeeded. *)
Lemma get_state_head (s : DS4) (frame : bytearray) (b0 : byte) :
  nth_error frame 0 = Some b0 ->
  get_state frame s =
    if Z.eqb (Z.of_N (Byte.to_N b0)) 0xc9 then (set_state_vec frame s, Ok false)
    else if py_ne (_previous_state s) frame then
      match parse_state (set_previous_state (Bytes frame)
                                            (set_state_vec frame s)) with
      | (s', Ok _) => (s', Ok true)
      | (s', Raise e) => (s', Raise e)
      end
    else (set_state_vec frame s, Ok false).
Proof.
  intros H. unfold get_state, bind, setattr, getitem, getattr, ret.
  rewrite H. cbv beta iota.
  destruct (Z.eqb (Z.of_N (Byte.to_N b0)) 0xc9); [reflexivity|].
  change (_previous_state (set_state_vec frame s)) with (_previous_state s).
  destruct (py_ne (_previous_state s) frame); [|reflexivity].
  destruct (parse_state _) as [s' [[]|e]]; reflexivity.
Qed.

Lemma get_state_empty (s : DS4) :
  get_state [] s = (set_state_vec [] s, Raise IndexError).
Proof. reflexivity. Qed.

(** [get_state] on a frame that is long enough and does not start with the
    sentinel. *)
Lemma get_state_long (s : DS4) (frame : bytearray) :
  (11 <= length frame)%nat ->
  nth_error frame 0 <> Some xc9 ->
  get_state frame s =
    if py_ne (_previous_state s) frame then
      (decoded frame (set_previous_state (Bytes frame) (set_state_vec frame s)),
       Ok true)
    else (set_state_vec frame s, Ok false).
Proof.
  intros Hl Hg.
  destruct frame as [|b0 tl] eqn:E; [simpl in Hl; lia|]. rewrite <- E in *.
  rewrite (get_state_head s frame b0) by (subst; reflexivity).
  destruct (Z.eqb _ 0xc9) eqn:Eg.
  { apply sentinel_test in Eg. subst. now elim Hg. }
  destruct (py_ne _ frame); [|reflexivity].
  now rewrite (parse_state_decoded _ frame) by (trivial; reflexivity).
Qed.

(** After an accepted frame the baseline is that frame and [_state_vec]
    holds it, whether or not a change was reported. *)
Lemma same_frame_twice_aux (s : DS4) (frame : bytearray) :
  (11 <= length frame)%nat ->
  nth_error frame 0 <> Some xc9 ->
  _previous_state (fst (get_state frame s)) = Bytes frame /\
  _state_vec (fst (get_state frame s)) = Some frame.
Proof.
  intros Hl Hg. rewrite (get_state_long s frame Hl Hg).
  destruct (py_ne (_previous_state s) frame) eqn:E; simpl.
  - split; reflexivity.
  - apply py_ne_false in E. split; [exact E | reflexivity].
Qed.

(** Out of range at one of its reads, [parse_state] raises; the baseline is
    not among the attributes it assigns. *)
Lemma parse_state_short (s : DS4) (data : bytearray) :
  _state_vec s = Some data ->
  (length data < 11)%nat ->
  exists s', parse_state s = (s', Raise IndexError) /\
             _previous_state s' = _previous_state s.
Proof.
  intros Hv Hl. unfold parse_state, bind, getattr. rewrite Hv.
  do 11 (destruct data as [|? data]; [eexists; split; reflexivity|]).
  simpl in Hl. lia.
Qed.

Lemma fields_decoded (data : bytearray) (s s' : DS4) :
  fields (decoded data s) = fields (decoded data s').
Proof. reflexivity. Qed.

Lemma byte_at_firstn (data : bytearray) (n i : nat) :
  (i < n)%nat -> byte_at (firstn n data) i = byte_at data i.
Proof.
  intros H. unfold byte_at. f_equal. f_equal.
  revert n data H. induction i as [|i IH]; intros [|n] [|b data] H;
    simpl; try reflexivity; try lia.
  apply IH. lia.
Qed.

(** *** Bounds of the bit arithmetic *)

Lemma int_bool_01 (x : Z) : int_bool x = 0 \/ int_bool x = 1.
Proof. unfold int_bool. destruct (Z.eqb x 0); auto. Qed.

Lemma lor_below (n a b : Z) :
  0 <= n -> 0 <= a < 2 ^ n -> 0 <= b < 2 ^ n -> 0 <= Z.lor a b < 2 ^ n.
Proof.
  intros Hn Ha Hb. split; [apply Z.lor_nonneg; lia|].
  destruct (Z.eq_dec (Z.lor a b) 0) as [E|E]; [rewrite E; lia|].
  assert (0 < Z.lor a b) by (pose proof (proj2 (Z.lor_nonneg a b)); lia).
  apply Z.log2_lt_pow2; [lia|].
  rewrite Z.log2_lor by lia.
  destruct (Z.eq_dec a 0) as [->|]; destruct (Z.eq_dec b 0) as [->|].
  - simpl in E. congruence.
  - rewrite Z.max_r by (simpl; apply Z.log2_nonneg).
    apply Z.log2_lt_pow2; lia.
  - rewrite Z.max_l by (simpl; apply Z.log2_nonneg).
    apply Z.log2_lt_pow2; lia.
  - apply Z.max_lub_lt; apply Z.log2_lt_pow2; lia.
Qed.

Lemma land_low_bits (x n : Z) :
  0 <= n -> Z.land x (Z.ones n) = x mod 2 ^ n.
Proof. intros. now apply Z.land_ones. Qed.

Section StickBounds.
Variables d e : Z.
Hypothesis Hd : 0 <= d <= 255.
Hypothesis He : 0 <= e <= 255.

Lemma LX_bound : 0 <= Z.lor (Z.shiftl d 2) (Z.shiftr e 6) <= 1023.
Proof.
  rewrite Z.shiftl_mul_pow2, Z.shiftr_div_pow2 by lia.
  change (2 ^ 2) with 4. change (2 ^ 6) with 64.
  assert (0 <= Z.lor (d * 4) (e / 64) < 2 ^ 10); [|lia].
  apply lor_below; [lia| |]; change (2 ^ 10) with 1024.
  - lia.
  - pose proof (Z.div_pos e 64).
    assert (e / 64 < 4) by (apply Z.div_lt_upper_bound; lia). lia.
Qed.

Lemma LY_bound : 0 <= Z.shiftl (Z.land d 0x3f) 4 + Z.shiftr e 4 <= 1023.
Proof.
  change 0x3f with (Z.ones 6). rewrite land_low_bits by lia.
  rewrite Z.shiftl_mul_pow2, Z.shiftr_div_pow2 by lia.
  change (2 ^ 6) with 64. change (2 ^ 4) with 16.
  pose proof (Z.mod_pos_bound d 64).
  pose proof (Z.div_pos e 16).
  assert (e / 16 < 16) by (apply Z.div_lt_upper_bound; lia). lia.
Qed.

Lemma RX_bound :
  0 <= Z.lor (Z.shiftl (Z.land d 0xf) 6) (Z.shiftr e 2) <= 1023.
Proof.
  change 0xf with (Z.ones 4). rewrite land_low_bits by lia.
  rewrite Z.shiftl_mul_pow2, Z.shiftr_div_pow2 by lia.
  change (2 ^ 4) with 16. change (2 ^ 6) with 64. change (2 ^ 2) with 4.
  assert (0 <= Z.lor (d mod 16 * 64) (e / 4) < 2 ^ 10); [|lia].
  pose proof (Z.mod_pos_bound d 16).
  apply lor_below; [lia| |]; change (2 ^ 10) with 1024.
  - lia.
  - pose proof (Z.div_pos e 4).
    assert (e / 4 < 64) by (apply Z.div_lt_upper_bound; lia). lia.
Qed.

Lemma RY_bound : 0 <= Z.shiftl (Z.land d 0x3) 8 + e <= 1023.
Proof.
  change 0x3 with (Z.ones 2). rewrite land_low_bits by lia.
  rewrite Z.shiftl_mul_pow2 by lia.
  change (2 ^ 2) with 4. change (2 ^ 8) with 256.
  pose proof (Z.mod_pos_bound d 4). lia.
Qed.
End StickBounds.


(** *** The calls of [simulate_input] *)

Lemma in_when_pressed (flag : Z) (button b : DS4_BUTTONS) :
  In (press_button b) (when_pressed flag button) <-> b = button /\ flag <> 0.
Proof.
  unfold when_pressed, truthy. destruct (Z.eqb_spec flag 0); simpl.
  - tauto.
  - split.
    + intros [H|[]]. injection H as ->. auto.
    + intros [-> _]. auto.
Qed.

Lemma when_pressed_presses (flag : Z) (button : DS4_BUTTONS) (d : directive) :
  In d (when_pressed flag button) -> d = press_button button.
Proof.
  unfold when_pressed. destruct (truthy flag); simpl; [|tauto].
  intros [H|[]]; auto.
Qed.

(** * Claims *)

(** C1: a frame whose first byte is the sentinel [0xc9], of any length, makes
    [get_state] return [False]; the frame is only recorded in [_state_vec]:
    the baseline [_previous_state] and all fourteen controller fields keep
    their values, nothing is decoded. *)
Theorem garbage_frame_ignored (s : DS4) (frame : bytearray) :
  nth_error frame 0 = Some xc9 ->
  get_state frame s = (set_state_vec frame s, Ok false) /\
  _previous_state (fst (get_state frame s)) = _previous_state s /\
  fields (fst (get_state frame s)) = fields s.
Proof.
  intros H. rewrite (get_state_head s frame xc9 H). simpl. auto.
Qed.

Lemma garbage_frame_ignored_witness :
  get_state garbage_frame DS4_init = (set_state_vec garbage_frame DS4_init, Ok false) /\
  _previous_state (fst (get_state garbage_frame DS4_init)) = EmptyStr /\
  fields (fst (get_state garbage_frame DS4_init)) = fields DS4_init.
Proof. apply (garbage_frame_ignored DS4_init garbage_frame). reflexivity. Defined.

(** C10: after [parse_state] on a frame of at least eleven bytes, each of
    L1, R1, Cross, Circle, Square, Triangle, Share, Options is 0 or 1, each of
    L2, R2 lies in 0..255, and each of LX, LY, RX, RY lies in 0..1023. *)
Theorem parse_state_ranges (s : DS4) (data : bytearray) :
  _state_vec s = Some data ->
  (11 <= length data)%nat ->
  exists s', parse_state s = (s', Ok tt) /\
    Forall (fun v => v = 0 \/ v = 1)
      [L1 s'; R1 s'; Cross s'; Circle s'; Square s'; Triangle s';
       Share s'; Options s'] /\
    Forall (fun v => 0 <= v <= 255) [L2 s'; R2 s'] /\
    Forall (fun v => 0 <= v <= 1023) [LX s'; LY s'; RX s'; RY s'].
Proof.
  intros Hv Hl. exists (decoded data s).
  split; [now apply parse_state_decoded|].
  unfold decoded; cbn [L1 L2 R1 R2 Cross Circle Square Triangle Share Options
                       LX LY RX RY].
  pose proof (byte_at_range data) as Hb.
  split; [|split].
  - repeat (apply Forall_cons; [apply int_bool_01|]). apply Forall_nil.
  - repeat (apply Forall_cons; [apply Hb|]). apply Forall_nil.
  - repeat (apply Forall_cons;
            [solve [auto using LX_bound, LY_bound, RX_bound, RY_bound]|]).
    apply Forall_nil.
Qed.

Lemma parse_state_ranges_witness :
  exists s', parse_state (set_state_vec stick_frame DS4_init) = (s', Ok tt) /\
    Forall (fun v => v = 0 \/ v = 1)
      [L1 s'; R1 s'; Cross s'; Circle s'; Square s'; Triangle s';
       Share s'; Options s'] /\
    Forall (fun v => 0 <= v <= 255) [L2 s'; R2 s'] /\
    Forall (fun v => 0 <= v <= 1023) [LX s'; LY s'; RX s'; RY s'].
Proof.
  apply (parse_state_ranges (set_state_vec stick_frame DS4_init) stick_frame).
  - reflexivity.
  - simpl. lia.
Defined.

(** C3: the source documents the stick fields as [-512 to +512], but on the
    frame whose byte 2 is [0xff] the code leaves [LX = 1020], outside
    [STICK_MIN..STICK_MAX]. *)
Theorem stick_axis_outside_documented_range :
  get_state stick_frame DS4_init =
    (decoded stick_frame
       (set_previous_state (Bytes stick_frame)
                           (set_state_vec stick_frame DS4_init)),
     Ok true) /\
  LX (fst (get_state stick_frame DS4_init)) = 1020 /\
  ~ (STICK_MIN <= LX (fst (get_state stick_frame DS4_init)) <= STICK_MAX).
Proof.
  split; [reflexivity|]. split; [reflexivity|].
  vm_compute. intros [_ H]. now apply H.
Qed.

(** C4, as stated, fails: nothing is clamped.  The frame whose byte 2 is
    [0xff] makes the loop hand the gamepad a left-stick X of [1020 / 512],
    which is greater than 1. *)
Lemma normalized_stick_exceeds_one :
  main_step stick_frame DS4_init =
    (fst (get_state stick_frame DS4_init),
     Ok [left_joystick_float (true_div 1020 512) (true_div 0 512);
         right_joystick_float (true_div 0 512) (true_div 0 512);
         update]) /\
  (1 < true_div 1020 512)%Q.
Proof. split; vm_compute; reflexivity. Qed.

(** C4, amended: each stick directive carries exactly [v / 512] for the four
    stick fields, with no clamping; [-512] maps to [-1] and [512] to [+1];
    and [v / 512] lies in [-1, +1] exactly when [v] lies in
    [STICK_MIN..STICK_MAX]. *)
Theorem stick_normalization (s : DS4) (v : Z) :
  In (left_joystick_float (true_div (LX s) 512) (true_div (LY s) 512))
     (simulate_input s) /\
  In (right_joystick_float (true_div (RX s) 512) (true_div (RY s) 512))
     (simulate_input s) /\
  (true_div STICK_MIN 512 == -1)%Q /\
  (true_div STICK_MAX 512 == 1)%Q /\
  ((-1 <= true_div v 512 /\ true_div v 512 <= 1)%Q <->
   STICK_MIN <= v <= STICK_MAX).
Proof.
  split; [|split; [|split; [|split]]].
  - unfold simulate_input. rewrite !in_app_iff. simpl. tauto.
  - unfold simulate_input. rewrite !in_app_iff. simpl. tauto.
  - reflexivity.
  - reflexivity.
  - unfold true_div, STICK_MIN, STICK_MAX, Qle, Qdiv, Qmult, Qinv; simpl.
    lia.
Qed.

(** C5, as stated, fails: there is no length check.  A one-byte frame that
    is not the sentinel is not dropped: it overwrites the baseline and then
    [parse_state] raises [IndexError] at its first read. *)
Lemma short_frame_not_dropped :
  (length [xc8] < 11)%nat /\
  get_state [xc8] DS4_init =
    (set_previous_state (Bytes [xc8]) (set_state_vec [xc8] DS4_init),
     Raise IndexError) /\
  _previous_state (fst (get_state [xc8] DS4_init)) <>
    _previous_state DS4_init.
Proof. split; [simpl; lia|]. split; [reflexivity|discriminate]. Qed.

(** C5, amended: a frame shorter than eleven bytes is never reported as a
    change, but it is not always dropped.  Empty, it makes [get_state] raise
    [IndexError] with baseline and fields untouched; starting with the
    sentinel, or equal to the baseline, it returns [False] with baseline and
    fields untouched; otherwise it becomes the baseline and [get_state] then
    raises [IndexError] out of [parse_state]. *)
Theorem short_frame_outcome (s : DS4) (frame : bytearray) :
  (length frame < 11)%nat ->
  snd (get_state frame s) <> Ok true /\
  (frame = [] ->
   get_state frame s = (set_state_vec frame s, Raise IndexError)) /\
  (nth_error frame 0 = Some xc9 \/ _previous_state s = Bytes frame ->
   frame <> [] ->
   get_state frame s = (set_state_vec frame s, Ok false)) /\
  (nth_error frame 0 <> Some xc9 -> _previous_state s <> Bytes frame ->
   frame <> [] ->
   snd (get_state frame s) = Raise IndexError /\
   _previous_state (fst (get_state frame s)) = Bytes frame).
Proof.
  intros Hl.
  destruct frame as [|b0 tl] eqn:E.
  { rewrite get_state_empty. simpl. repeat split; congruence. }
  rewrite <- E in *.
  assert (Hh : nth_error frame 0 = Some b0) by (subst; reflexivity).
  assert (Hne : frame <> []) by (subst; discriminate).
  rewrite (get_state_head s frame b0 Hh), Hh.
  destruct (parse_state_short
              (set_previous_state (Bytes frame) (set_state_vec frame s))
              frame eq_refl Hl) as (s' & Hp & Hprev).
  rewrite Hp. simpl in Hprev.
  destruct (Z.eqb _ 0xc9) eqn:Eg.
  - apply sentinel_test in Eg. subst b0. simpl.
    repeat split; try congruence; intros; exfalso; congruence.
  - assert (b0 <> xc9).
    { intros ->. rewrite (proj2 (sentinel_test xc9) eq_refl) in Eg.
      discriminate. }
    destruct (py_ne (_previous_state s) frame) eqn:En; simpl.
    + apply py_ne_true in En.
      repeat split; try congruence.
      intros [H'|H']; congruence.
    + apply py_ne_false in En.
      repeat split; try congruence; intros; exfalso; congruence.
Qed.

Lemma short_frame_outcome_witness :
  snd (get_state [xc8] DS4_init) = Raise IndexError /\
  _previous_state (fst (get_state [xc8] DS4_init)) = Bytes [xc8].
Proof.
  apply (short_frame_outcome DS4_init [xc8]).
  - simpl. lia.
  - discriminate.
  - discriminate.
  - discriminate.
Defined.

(** C7, as stated, fails: the comparison is on the raw frames.  Two frames
    that differ only in their last byte decode to the same fields, yet
    reading the second right after the first returns [True] and the loop
    emits. *)
Lemma field_equal_frames_report_change :
  idle_frame <> idle_frame' /\
  fields (decoded idle_frame DS4_init) = fields (decoded idle_frame' DS4_init) /\
  snd (get_state idle_frame' (fst (get_state idle_frame DS4_init))) = Ok true /\
  snd (main_step idle_frame' (fst (get_state idle_frame DS4_init))) =
    Ok [left_joystick_float (true_div 0 512) (true_div 0 512);
        right_joystick_float (true_div 0 512) (true_div 0 512);
        update].
Proof.
  split; [discriminate|]. repeat split; vm_compute; reflexivity.
Qed.

(** C7, amended: change detection is byte-wise equality of the raw frames.
    Reading an accepted frame right after another accepted frame returns
    [True] exactly when the two frames differ in some byte, and [False]
    exactly when they are byte-identical; in particular frames whose decoded
    fields differ are always reported as a change. *)
Theorem change_detection_bytewise (s : DS4) (f1 f2 : bytearray) :
  (11 <= length f1)%nat -> nth_error f1 0 <> Some xc9 ->
  (11 <= length f2)%nat -> nth_error f2 0 <> Some xc9 ->
  (snd (get_state f2 (fst (get_state f1 s))) = Ok true <-> f1 <> f2) /\
  (snd (get_state f2 (fst (get_state f1 s))) = Ok false <-> f1 = f2) /\
  (fields (decoded f1 s) <> fields (decoded f2 s) ->
   snd (get_state f2 (fst (get_state f1 s))) = Ok true).
Proof.
  intros Hl1 Hg1 Hl2 Hg2.
  assert (Hp : _previous_state (fst (get_state f1 s)) = Bytes f1).
  { destruct (same_frame_twice_aux s f1 Hl1 Hg1) as [H _]. exact H. }
  rewrite (get_state_long _ f2 Hl2 Hg2), Hp.
  destruct (py_ne (Bytes f1) f2) eqn:E; simpl.
  - apply py_ne_true in E. assert (f1 <> f2) by congruence.
    repeat split; congruence || tauto.
  - apply py_ne_false in E. injection E as ->.
    repeat split; congruence || tauto.
Qed.

Lemma change_detection_bytewise_witness :
  (snd (get_state idle_frame' (fst (get_state idle_frame DS4_init))) = Ok true
   <-> idle_frame <> idle_frame') /\
  (snd (get_state idle_frame' (fst (get_state idle_frame DS4_init))) = Ok false
   <-> idle_frame = idle_frame') /\
  (fields (decoded idle_frame DS4_init) <> fields (decoded idle_frame' DS4_init) ->
   snd (get_state idle_frame' (fst (get_state idle_frame DS4_init))) = Ok true).
Proof.
  apply (change_detection_bytewise DS4_init idle_frame idle_frame').
  - simpl. lia.
  - discriminate.
  - simpl. lia.
  - discriminate.
Defined.

(** C9, as stated, fails: shoulder buttons and triggers are decoded but never
    sent.  With L1 held and L2 fully pressed the gamepad receives the two
    stick calls and [update], and nothing else. *)
Lemma shoulder_and_trigger_not_emitted :
  snd (get_state shoulder_frame DS4_init) = Ok true /\
  L1 (fst (get_state shoulder_frame DS4_init)) = 1 /\
  L2 (fst (get_state shoulder_frame DS4_init)) = 255 /\
  simulate_input (fst (get_state shoulder_frame DS4_init)) =
    [left_joystick_float (true_div 0 512) (true_div 0 512);
     right_joystick_float (true_div 0 512) (true_div 0 512);
     update].
Proof. repeat split; vm_compute; reflexivity. Qed.

(** C9, amended: [simulate_input] presses exactly the buttons among Cross,
    Circle, Square, Triangle, Share and Options whose field is non-zero
    (never a shoulder button), makes no trigger call, and after the presses
    makes one left-stick call, one right-stick call and one final
    [update]. *)
Theorem simulate_input_directives (s : DS4) :
  (forall b, In (press_button b) (simulate_input s) <->
     (b = DS4_BUTTON_CROSS /\ Cross s <> 0) \/
     (b = DS4_BUTTON_CIRCLE /\ Circle s <> 0) \/
     (b = DS4_BUTTON_SQUARE /\ Square s <> 0) \/
     (b = DS4_BUTTON_TRIANGLE /\ Triangle s <> 0) \/
     (b = DS4_BUTTON_SHARE /\ Share s <> 0) \/
     (b = DS4_BUTTON_OPTIONS /\ Options s <> 0)) /\
  (forall v, ~ In (left_trigger v) (simulate_input s) /\
             ~ In (right_trigger v) (simulate_input s)) /\
  exists presses,
    simulate_input s =
      presses ++
      [left_joystick_float (true_div (LX s) 512) (true_div (LY s) 512);
       right_joystick_float (true_div (RX s) 512) (true_div (RY s) 512);
       update] /\
    forall d, In d presses -> exists b, d = press_button b.
Proof.
  split; [|split].
  - intros b. unfold simulate_input.
    rewrite !in_app_iff, !in_when_pressed. simpl.
    intuition discriminate.
  - intros v. unfold simulate_input. rewrite !in_app_iff. simpl.
    split; intros H; decompose [or] H;
      try discriminate; try contradiction;
      match goal with
      | H' : In _ (when_pressed _ _) |- _ =>
          apply when_pressed_presses in H'; discriminate
      end.
  - exists (when_pressed (Cross s) DS4_BUTTON_CROSS ++
            when_pressed (Circle s) DS4_BUTTON_CIRCLE ++
            when_pressed (Square s) DS4_BUTTON_SQUARE ++
            when_pressed (Triangle s) DS4_BUTTON_TRIANGLE ++
            when_pressed (Share s) DS4_BUTTON_SHARE ++
            when_pressed (Options s) DS4_BUTTON_OPTIONS).
    split.
    + unfold simulate_input. now rewrite <- !app_assoc.
    + intros d. rewrite !in_app_iff.
      intros H; repeat destruct H as [H|H];
        apply when_pressed_presses in H; eauto.
Qed.

(** * Further properties *)

(** ** Auxiliary lemmas *)

Lemma parse_state_ten (s : DS4) (data : bytearray) :
  _state_vec s = Some data ->
  length data = 10%nat ->
  parse_state s = (half_decoded data s, Raise IndexError).
Proof.
  intros Hv Hl. unfold parse_state, bind, getattr. rewrite Hv.
  do 10 (destruct data as [|? data]; [discriminate Hl|]).
  destruct data; [|discriminate Hl]. reflexivity.
Qed.

Lemma parse_state_le9 (s : DS4) (data : bytearray) :
  _state_vec s = Some data ->
  (length data <= 9)%nat ->
  parse_state s = (s, Raise IndexError).
Proof.
  intros Hv Hl. unfold parse_state, bind, getattr. rewrite Hv.
  do 10 (destruct data as [|? data]; [reflexivity|]).
  simpl in Hl. lia.
Qed.

(** The three ways [parse_state] can end on an object holding a frame. *)
Lemma parse_state_cases (s : DS4) (data : bytearray) :
  _state_vec s = Some data ->
  ((11 <= length data)%nat /\ parse_state s = (decoded data s, Ok tt)) \/
  (length data = 10%nat /\
   parse_state s = (half_decoded data s, Raise IndexError)) \/
  ((length data <= 9)%nat /\ parse_state s = (s, Raise IndexError)).
Proof.
  intros Hv.
  destruct (le_lt_dec 11 (length data)) as [H|H].
  - left. split; [exact H|]. now apply parse_state_decoded.
  - right. destruct (Nat.eq_dec (length data) 10) as [E|E].
    + left. split; [exact E|]. now apply parse_state_ten.
    + right. split; [lia|]. apply (parse_state_le9 s data); [exact Hv|lia].
Qed.

Lemma is_garbage_head (frame : bytearray) :
  is_garbage frame = true <-> nth_error frame 0 = Some xc9.
Proof.
  destruct frame as [|b0 tl]; simpl.
  - split; discriminate.
  - rewrite sentinel_test. split; congruence.
Qed.

(** [get_state] on a frame with a first byte, by cases. *)
Lemma get_state_nonempty (s : DS4) (frame : bytearray) :
  frame <> [] ->
  get_state frame s =
    if is_garbage frame then (set_state_vec frame s, Ok false)
    else if py_ne (_previous_state s) frame then
      match parse_state (set_previous_state (Bytes frame)
                                            (set_state_vec frame s)) with
      | (s', Ok _) => (s', Ok true)
      | (s', Raise e) => (s', Raise e)
      end
    else (set_state_vec frame s, Ok false).
Proof.
  intros H. destruct frame as [|b0 tl]; [now elim H|].
  now rewrite (get_state_head s (b0 :: tl) b0 eq_refl).
Qed.

Lemma set_state_vec_same (s : DS4) (frame : bytearray) :
  _state_vec s = Some frame -> set_state_vec frame s = s.
Proof. destruct s; simpl; intros ->; reflexivity. Qed.

(** The object [get_state] leaves behind on a frame with a first byte: it
    holds the frame, and its baseline is the frame unless the frame was
    garbage. *)
Lemma get_state_after (s : DS4) (frame : bytearray) :
  frame <> [] ->
  _state_vec (fst (get_state frame s)) = Some frame /\
  _previous_state (fst (get_state frame s)) =
    (if is_garbage frame then _previous_state s else Bytes frame).
Proof.
  intros Hne. rewrite (get_state_nonempty s frame Hne).
  destruct (is_garbage frame); [split; reflexivity|].
  destruct (py_ne (_previous_state s) frame) eqn:E.
  - destruct (parse_state_cases
                (set_previous_state (Bytes frame) (set_state_vec frame s))
                frame eq_refl) as [[_ H]|[[_ H]|[_ H]]];
      rewrite H; split; reflexivity.
  - apply py_ne_false in E. split; [reflexivity | exact E].
Qed.

Lemma get_state_again (s : DS4) (frame : bytearray) :
  frame <> [] ->
  get_state frame (fst (get_state frame s)) =
    (fst (get_state frame s), Ok false).
Proof.
  intros Hne. destruct (get_state_after s frame Hne) as [Hv Hp].
  rewrite (get_state_nonempty _ frame Hne), Hp.
  rewrite (set_state_vec_same _ frame Hv).
  destruct (is_garbage frame); [reflexivity|].
  simpl. now rewrite bytearray_eqb_refl.
Qed.

Lemma fields_in_range_init : fields_in_range DS4_init.
Proof.
  unfold fields_in_range; simpl.
  repeat split; repeat (apply Forall_cons; [lia|]); apply Forall_nil.
Qed.

Lemma decoded_in_range (data : bytearray) (s : DS4) :
  fields_in_range (decoded data s).
Proof.
  pose proof (byte_at_range data) as Hb.
  unfold fields_in_range, decoded;
    cbn [L1 L2 R1 R2 Cross Circle Square Triangle Share Options LX LY RX RY].
  split; [|split].
  - repeat (apply Forall_cons; [apply int_bool_01|]). apply Forall_nil.
  - repeat (apply Forall_cons; [apply Hb|]). apply Forall_nil.
  - repeat (apply Forall_cons;
            [solve [auto using LX_bound, LY_bound, RX_bound, RY_bound]|]).
    apply Forall_nil.
Qed.

Lemma half_decoded_in_range (data : bytearray) (s : DS4) :
  fields_in_range s -> fields_in_range (half_decoded data s).
Proof.
  pose proof (byte_at_range data) as Hb.
  unfold fields_in_range, half_decoded;
    cbn [L1 L2 R1 R2 Cross Circle Square Triangle Share Options LX LY RX RY].
  intros (Hbtn & _ & Hst). split; [|split].
  - repeat (apply Forall_cons; [apply int_bool_01|]).
    do 6 (apply Forall_inv_tail in Hbtn). exact Hbtn.
  - repeat (apply Forall_cons; [apply Hb|]). apply Forall_nil.
  - exact Hst.
Qed.

Lemma fields_in_range_get_state (s : DS4) (frame : bytearray) :
  fields_in_range s -> fields_in_range (fst (get_state frame s)).
Proof.
  intros H. destruct frame as [|b0 tl] eqn:E.
  { rewrite get_state_empty. exact H. }
  rewrite <- E. assert (Hne : frame <> []) by (subst; discriminate).
  rewrite (get_state_nonempty s frame Hne).
  destruct (is_garbage frame); [exact H|].
  destruct (py_ne (_previous_state s) frame); [|exact H].
  destruct (parse_state_cases
              (set_previous_state (Bytes frame) (set_state_vec frame s))
              frame eq_refl) as [[_ Hp]|[[_ Hp]|[_ Hp]]]; rewrite Hp; simpl.
  - apply decoded_in_range.
  - apply half_decoded_in_range. exact H.
  - exact H.
Qed.

Lemma baseline_ok_get_state (s : DS4) (frame : bytearray) :
  baseline_ok s -> baseline_ok (fst (get_state frame s)).
Proof.
  intros H. destruct frame as [|b0 tl] eqn:E.
  { rewrite get_state_empty. exact H. }
  rewrite <- E. assert (Hne : frame <> []) by (subst; discriminate).
  unfold baseline_ok. rewrite (proj2 (get_state_after s frame Hne)).
  destruct (is_garbage frame) eqn:Eg; [exact H|]. split; assumption.
Qed.

(** [get_state] raises nothing but [IndexError]. *)
Lemma get_state_raises (s : DS4) (frame : bytearray) (e : exn) :
  snd (get_state frame s) = Raise e -> e = IndexError.
Proof.
  destruct frame as [|b0 tl] eqn:E.
  { rewrite get_state_empty. simpl. congruence. }
  rewrite <- E. assert (Hne : frame <> []) by (subst; discriminate).
  rewrite (get_state_nonempty s frame Hne).
  destruct (is_garbage frame); [discriminate|].
  destruct (py_ne (_previous_state s) frame); [|discriminate].
  destruct (parse_state_cases
              (set_previous_state (Bytes frame) (set_state_vec frame s))
              frame eq_refl) as [[_ Hp]|[[_ Hp]|[_ Hp]]]; rewrite Hp; simpl;
    congruence.
Qed.

(** One turn of the loop in terms of [get_state]. *)
Lemma main_step_get_state (s : DS4) (frame : bytearray) :
  main_step frame s =
    match get_state frame s with
    | (s', Ok true) => (s', Ok (simulate_input s'))
    | (s', Ok false) => (s', Ok [])
    | (s', Raise e) => (s', Raise e)
    end.
Proof.
  unfold main_step, bind.
  destruct (get_state frame s) as [s' [[|]|e]]; reflexivity.
Qed.

Lemma main_step_state (s : DS4) (frame : bytearray) :
  fst (main_step frame s) = fst (get_state frame s).
Proof.
  rewrite main_step_get_state.
  destruct (get_state frame s) as [s' [[|]|e]]; reflexivity.
Qed.

(** Whatever [get_state] preserves, the loop preserves. *)
Lemma main_loop_preserves (P : DS4 -> Prop) :
  (forall frame s, P s -> P (fst (get_state frame s))) ->
  forall reads s, P s -> P (fst (fst (main_loop reads s))).
Proof.
  intros Hstep reads. induction reads as [|frame rest IH]; intros s Hs.
  - exact Hs.
  - simpl. pose proof (Hstep frame s Hs) as H1.
    rewrite <- main_step_state in H1.
    destruct (main_step frame s) as [s' [ds|e]]; simpl in H1.
    + specialize (IH s' H1).
      destruct (main_loop rest s') as [[s'' tr] e]. exact IH.
    + exact H1.
Qed.

Lemma main_loop_raises (reads : list bytearray) (s : DS4) (e : exn) :
  snd (main_loop reads s) = Some e -> e = IndexError.
Proof.
  revert s. induction reads as [|frame rest IH]; intros s; simpl.
  - discriminate.
  - pose proof (get_state_raises s frame) as Hr.
    rewrite main_step_get_state.
    destruct (get_state frame s) as [s' [[|]|e']]; simpl in *.
    + specialize (IH s'). destruct (main_loop rest s') as [[s'' tr] e''].
      exact IH.
    + specialize (IH s'). destruct (main_loop rest s') as [[s'' tr] e''].
      exact IH.
    + intros H. injection H as <-. now apply Hr.
Qed.

Lemma simulate_input_in (s : DS4) (d : directive) :
  In d (simulate_input s) ->
  (exists b, d = press_button b) \/
  d = left_joystick_float (true_div (LX s) 512) (true_div (LY s) 512) \/
  d = right_joystick_float (true_div (RX s) 512) (true_div (RY s) 512) \/
  d = update.
Proof.
  unfold simulate_input. rewrite !in_app_iff. simpl.
  intros H; decompose [or] H; auto;
    try (left; eexists; eapply when_pressed_presses; eassumption).
  contradiction.
Qed.

Lemma true_div_512_range (v : Z) :
  0 <= v <= 1023 -> (0 <= true_div v 512 /\ true_div v 512 < 2)%Q.
Proof.
  intros H. unfold true_div, Qle, Qlt, Qdiv, Qmult, Qinv; simpl. lia.
Qed.

Lemma simulate_input_sticks (s : DS4) :
  fields_in_range s -> Forall stick_in_range (simulate_input s).
Proof.
  intros (_ & _ & Hst). apply Forall_forall. intros d Hd.
  assert (Hx := Forall_inv Hst).
  assert (Hy := Forall_inv (Forall_inv_tail Hst)).
  assert (Hrx := Forall_inv (Forall_inv_tail (Forall_inv_tail Hst))).
  assert (Hry := Forall_inv (Forall_inv_tail (Forall_inv_tail
                                                (Forall_inv_tail Hst)))).
  simpl in Hx, Hy, Hrx, Hry.
  apply simulate_input_in in Hd.
  destruct Hd as [[b ->] | [-> | [-> | ->]]]; simpl; auto;
    repeat split; now apply true_div_512_range.
Qed.

Lemma main_loop_sticks (reads : list bytearray) (s : DS4) :
  fields_in_range s ->
  Forall stick_in_range (snd (fst (main_loop reads s))).
Proof.
  revert s. induction reads as [|frame rest IH]; intros s Hs; simpl.
  - apply Forall_nil.
  - pose proof (fields_in_range_get_state s frame Hs) as H1.
    rewrite main_step_get_state.
    destruct (get_state frame s) as [s' [[|]|e']]; simpl in *.
    + specialize (IH s' H1). destruct (main_loop rest s') as [[s'' tr] e''].
      simpl in *. apply Forall_app. split; [|exact IH].
      now apply simulate_input_sticks.
    + specialize (IH s' H1). destruct (main_loop rest s') as [[s'' tr] e''].
      exact IH.
    + apply Forall_nil.
Qed.

Lemma is_garbage_nonempty (frame : bytearray) :
  is_garbage frame = true -> frame <> [].
Proof. destruct frame; [discriminate | discriminate]. Qed.

(** [get_state] on a readable frame. *)
Lemma get_state_readable (s : DS4) (frame : bytearray) :
  readable frame ->
  get_state frame s =
    if is_garbage frame then (set_state_vec frame s, Ok false)
    else if py_ne (_previous_state s) frame then
      (decoded frame (set_previous_state (Bytes frame) (set_state_vec frame s)),
       Ok true)
    else (set_state_vec frame s, Ok false).
Proof.
  intros Hr. destruct (is_garbage frame) eqn:Eg.
  - rewrite (get_state_nonempty s frame (is_garbage_nonempty frame Eg)), Eg.
    reflexivity.
  - destruct Hr as [Hr|Hr]; [congruence|].
    apply get_state_long; [exact Hr|].
    intros H. apply is_garbage_head in H. congruence.
Qed.

(** On readable frames the loop never raises, and what it sends is what
    [simulate_input] makes of the frames that count as changes. *)
Lemma main_loop_readable (reads : list bytearray) (s : DS4) :
  Forall readable reads ->
  exists s',
    main_loop reads s =
      (s',
       flat_map (fun frame => simulate_input (decoded frame DS4_init))
                (changed_frames (_previous_state s) reads),
       None).
Proof.
  intros Hall. revert s.
  induction Hall as [|frame rest Hr _ IH]; intros s; simpl.
  - eexists. reflexivity.
  - rewrite main_step_get_state, (get_state_readable s frame Hr).
    destruct (is_garbage frame).
    + destruct (IH (set_state_vec frame s)) as [s' E]. rewrite E.
      eexists. reflexivity.
    + destruct (py_ne (_previous_state s) frame).
      * destruct (IH (decoded frame
                        (set_previous_state (Bytes frame)
                                            (set_state_vec frame s))))
          as [s' E].
        rewrite E. eexists. reflexivity.
      * destruct (IH (set_state_vec frame s)) as [s' E]. rewrite E.
        eexists. reflexivity.
Qed.

Lemma changed_frames_idle (frame : bytearray) (reads : list bytearray) :
  Forall (fun f => f = frame \/ is_garbage f = true) reads ->
  changed_frames (Bytes frame) reads = [].
Proof.
  induction 1 as [|f rest Hf _ IH]; simpl; [reflexivity|].
  destruct (is_garbage f) eqn:Eg; [exact IH|].
  destruct Hf as [->|Hf]; [|congruence].
  now rewrite bytearray_eqb_refl.
Qed.

Lemma simulate_input_last (s : DS4) :
  exists pre, simulate_input s = pre ++ [update].
Proof.
  exists (when_pressed (Cross s) DS4_BUTTON_CROSS ++
          when_pressed (Circle s) DS4_BUTTON_CIRCLE ++
          when_pressed (Square s) DS4_BUTTON_SQUARE ++
          when_pressed (Triangle s) DS4_BUTTON_TRIANGLE ++
          when_pressed (Share s) DS4_BUTTON_SHARE ++
          when_pressed (Options s) DS4_BUTTON_OPTIONS ++
          [left_joystick_float (true_div (LX s) 512) (true_div (LY s) 512);
           right_joystick_float (true_div (RX s) 512) (true_div (RY s) 512)]).
  unfold simulate_input. now rewrite <- !app_assoc.
Qed.

(** The calls of a run are whole emissions, at most one per read. *)
Lemma main_loop_emissions (reads : list bytearray) (s : DS4) :
  exists states,
    snd (fst (main_loop reads s)) = flat_map simulate_input states /\
    (length states <= length reads)%nat.
Proof.
  revert s. induction reads as [|frame rest IH]; intros s; simpl.
  - exists []. split; [reflexivity | simpl; lia].
  - rewrite main_step_get_state.
    destruct (get_state frame s) as [s' [[|]|e']].
    + destruct (IH s') as (states & E & Hl).
      destruct (main_loop rest s') as [[s'' tr] e'']. simpl in *.
      exists (s' :: states). simpl. split; [now rewrite E | lia].
    + destruct (IH s') as (states & E & Hl).
      destruct (main_loop rest s') as [[s'' tr] e'']. simpl in *.
      exists states. split; [exact E | lia].
    + exists []. split; [reflexivity | simpl; lia].
Qed.

Lemma emissions_end (states : list DS4) :
  flat_map simulate_input states = [] \/
  exists pre, flat_map simulate_input states = pre ++ [update].
Proof.
  induction states as [|s rest IH]; simpl; [now left|]. right.
  destruct IH as [E|[pre E]]; rewrite E.
  - rewrite app_nil_r. apply simulate_input_last.
  - exists (simulate_input s ++ pre). now rewrite app_assoc.
Qed.

Lemma main_loop_empty_read (reads : list bytearray) (s : DS4) :
  In [] reads -> snd (main_loop reads s) = Some IndexError.
Proof.
  revert s. induction reads as [|frame rest IH]; intros s Hin; simpl.
  - destruct Hin.
  - pose proof (get_state_raises s frame) as Hr.
    rewrite main_step_get_state.
    destruct (get_state frame s) as [s' [[|]|e']] eqn:E; simpl in *.
    + destruct Hin as [->|Hin]; [rewrite get_state_empty in E; discriminate|].
      specialize (IH s' Hin). destruct (main_loop rest s') as [[s'' tr] e''].
      exact IH.
    + destruct Hin as [->|Hin]; [rewrite get_state_empty in E; discriminate|].
      specialize (IH s' Hin). destruct (main_loop rest s') as [[s'' tr] e''].
      exact IH.
    + now rewrite (Hr e' eq_refl).
Qed.

Lemma main_get_state (first : bytearray) (reads : list bytearray) :
  main first reads =
    match get_state first DS4_init with
    | (s, Ok _) => main_loop reads s
    | (s, Raise e) => (s, [], Some e)
    end.
Proof.
  unfold main, connect, bind.
  destruct (get_state first DS4_init) as [s [b|e]]; reflexivity.
Qed.

(** *** The bit arithmetic as plain arithmetic *)

Lemma lor_disjoint_add (a b n : Z) :
  0 <= n -> 0 <= b < 2 ^ n -> Z.lor (a * 2 ^ n) b = a * 2 ^ n + b.
Proof.
  intros Hn Hb. pose proof (Z.add_lor_land (a * 2 ^ n) b) as H.
  assert (E : Z.land (a * 2 ^ n) b = 0).
  { rewrite <- (Z.mod_small b (2 ^ n)) by lia.
    rewrite <- (Z.land_ones b n) by lia.
    rewrite (Z.land_comm b), Z.land_assoc, Z.land_ones by lia.
    rewrite Z.mod_mul by lia. apply Z.land_0_l. }
  lia.
Qed.

Section StickArithmetic.
Variables d e : Z.
Hypothesis Hd : 0 <= d <= 255.
Hypothesis He : 0 <= e <= 255.

Lemma LX_arith : Z.lor (Z.shiftl d 2) (Z.shiftr e 6) = d * 4 + e / 64.
Proof.
  rewrite Z.shiftl_mul_pow2, Z.shiftr_div_pow2 by lia.
  rewrite lor_disjoint_add; [reflexivity | lia |].
  change (2 ^ 6) with 64. change (2 ^ 2) with 4.
  split; [apply Z.div_pos; lia | apply Z.div_lt_upper_bound; lia].
Qed.

Lemma LY_arith :
  Z.shiftl (Z.land d 0x3f) 4 + Z.shiftr e 4 = d mod 64 * 16 + e / 16.
Proof.
  change 0x3f with (Z.ones 6). rewrite land_low_bits by lia.
  now rewrite Z.shiftl_mul_pow2, Z.shiftr_div_pow2 by lia.
Qed.

Lemma RX_arith :
  Z.lor (Z.shiftl (Z.land d 0xf) 6) (Z.shiftr e 2) = d mod 16 * 64 + e / 4.
Proof.
  change 0xf with (Z.ones 4). rewrite land_low_bits by lia.
  rewrite Z.shiftl_mul_pow2, Z.shiftr_div_pow2 by lia.
  rewrite lor_disjoint_add; [reflexivity | lia |].
  change (2 ^ 2) with 4. change (2 ^ 6) with 64.
  split; [apply Z.div_pos; lia | apply Z.div_lt_upper_bound; lia].
Qed.

Lemma RY_arith : Z.shiftl (Z.land d 0x3) 8 + e = d mod 4 * 256 + e.
Proof.
  change 0x3 with (Z.ones 2). rewrite land_low_bits by lia.
  now rewrite Z.shiftl_mul_pow2 by lia.
Qed.
End StickArithmetic.

(** The four stick fields are the four ten-bit groups of bytes 2..6 read as
    one big-endian number. *)
Lemma decoded_sticks_packed (data : bytearray) (s : DS4) :
  LX (decoded data s) * 2 ^ 30 + LY (decoded data s) * 2 ^ 20 +
  RX (decoded data s) * 2 ^ 10 + RY (decoded data s) =
  byte_at data 2 * 2 ^ 32 + byte_at data 3 * 2 ^ 24 +
  byte_at data 4 * 2 ^ 16 + byte_at data 5 * 2 ^ 8 + byte_at data 6.
Proof.
  pose proof (byte_at_range data) as Hb.
  unfold decoded; cbn [LX LY RX RY].
  rewrite LX_arith, LY_arith, RX_arith, RY_arith by apply Hb.
  pose proof (Hb 2%nat). pose proof (Hb 3%nat). pose proof (Hb 4%nat).
  pose proof (Hb 5%nat). pose proof (Hb 6%nat).
  generalize dependent (byte_at data 2). generalize dependent (byte_at data 3).
  generalize dependent (byte_at data 4). generalize dependent (byte_at data 5).
  generalize dependent (byte_at data 6). clear Hb. intros.
  change (2 ^ 30) with 1073741824. change (2 ^ 20) with 1048576.
  change (2 ^ 10) with 1024. change (2 ^ 32) with 4294967296.
  change (2 ^ 24) with 16777216. change (2 ^ 16) with 65536.
  change (2 ^ 8) with 256.
  Z.div_mod_to_equations. lia.
Qed.

(** Bits 0, 1, 3, 4, 6 and 7 of byte 9 are the six button fields read from
    it; bits 2 and 3 of byte 10 are Share and Options. *)
Lemma button_byte_9 (b : byte) :
  Z.land (Z.of_N (Byte.to_N b)) 0xdb =
  int_bool (Z.land (Z.of_N (Byte.to_N b)) 0x01) +
  2 * int_bool (Z.land (Z.of_N (Byte.to_N b)) 0x02) +
  8 * int_bool (Z.land (Z.of_N (Byte.to_N b)) 0x08) +
  16 * int_bool (Z.land (Z.of_N (Byte.to_N b)) 0x10) +
  64 * int_bool (Z.land (Z.of_N (Byte.to_N b)) 0x40) +
  128 * int_bool (Z.land (Z.of_N (Byte.to_N b)) 0x80).
Proof. destruct b; reflexivity. Qed.

Lemma button_byte_10 (b : byte) :
  Z.land (Z.of_N (Byte.to_N b)) 0x0c =
  4 * int_bool (Z.land (Z.of_N (Byte.to_N b)) 0x04) +
  8 * int_bool (Z.land (Z.of_N (Byte.to_N b)) 0x08).
Proof. destruct b; reflexivity. Qed.

Lemma base256_digits (a b c d e a' b' c' d' e' : Z) :
  0 <= a <= 255 -> 0 <= b <= 255 -> 0 <= c <= 255 -> 0 <= d <= 255 ->
  0 <= e <= 255 ->
  0 <= a' <= 255 -> 0 <= b' <= 255 -> 0 <= c' <= 255 -> 0 <= d' <= 255 ->
  0 <= e' <= 255 ->
  a * 4294967296 + b * 16777216 + c * 65536 + d * 256 + e =
  a' * 4294967296 + b' * 16777216 + c' * 65536 + d' * 256 + e' ->
  a = a' /\ b = b' /\ c = c' /\ d = d' /\ e = e'.
Proof. lia. Qed.

Lemma fields_eq_inv (a b : DS4) :
  fields a = fields b ->
  (L1 a = L1 b /\ L2 a = L2 b /\ R1 a = R1 b /\ R2 a = R2 b) /\
  (Cross a = Cross b /\ Circle a = Circle b /\ Square a = Square b /\
   Triangle a = Triangle b /\ Share a = Share b /\ Options a = Options b) /\
  (LX a = LX b /\ LY a = LY b /\ RX a = RX b /\ RY a = RY b).
Proof. unfold fields. intros H. injection H. intros. repeat split; assumption. Qed.

(** Frames of at least eleven bytes decode to the same fields exactly when
    they agree on bytes 2..8, on the six button bits of byte 9 and on the two
    button bits of byte 10. *)
Lemma decoded_same_fields (f g : bytearray) (s s' : DS4) :
  fields (decoded f s) = fields (decoded g s') <->
  Forall (fun i => byte_at f i = byte_at g i) [2; 3; 4; 5; 6; 7; 8]%nat /\
  Z.land (byte_at f 9) 0xdb = Z.land (byte_at g 9) 0xdb /\
  Z.land (byte_at f 10) 0x0c = Z.land (byte_at g 10) 0x0c.
Proof.
  split.
  - intros H.
    pose proof (decoded_sticks_packed f s) as Pf.
    pose proof (decoded_sticks_packed g s') as Pg.
    pose proof (button_byte_9 (nth 9 f x00)) as Bf.
    pose proof (button_byte_9 (nth 9 g x00)) as Bg.
    pose proof (button_byte_10 (nth 10 f x00)) as Cf.
    pose proof (button_byte_10 (nth 10 g x00)) as Cg.
    fold (byte_at f 9) in Bf. fold (byte_at g 9) in Bg.
    fold (byte_at f 10) in Cf. fold (byte_at g 10) in Cg.
    apply fields_eq_inv in H.
    destruct H as ((E1 & E2 & E3 & E4) & (E5 & E6 & E7 & E8 & E9 & E10) &
                   (E11 & E12 & E13 & E14)).
    rewrite E11, E12, E13, E14, Pg in Pf.
    change (2 ^ 32) with 4294967296 in Pf. change (2 ^ 24) with 16777216 in Pf.
    change (2 ^ 16) with 65536 in Pf. change (2 ^ 8) with 256 in Pf.
    pose proof (byte_at_range f) as Hf. pose proof (byte_at_range g) as Hg.
    symmetry in Pf. apply base256_digits in Pf; try apply Hf; try apply Hg.
    destruct Pf as (P2 & P3 & P4 & P5 & P6).
    unfold decoded in *;
      cbn [L1 L2 R1 R2 Cross Circle Square Triangle Share Options] in *.
    split; [|split].
    + repeat (apply Forall_cons; [assumption|]). apply Forall_nil.
    + rewrite Bf, Bg. congruence.
    + rewrite Cf, Cg. congruence.
  - intros (Hb & H9 & H10).
    assert (M9 : forall m, Z.land 0xdb m = m ->
              Z.land (byte_at f 9) m = Z.land (byte_at g 9) m).
    { intros m Hm. rewrite <- Hm, !Z.land_assoc. now rewrite H9. }
    assert (M10 : forall m, Z.land 0x0c m = m ->
              Z.land (byte_at f 10) m = Z.land (byte_at g 10) m).
    { intros m Hm. rewrite <- Hm, !Z.land_assoc. now rewrite H10. }
    inversion_clear Hb as [|? ? P2 Hb1]. inversion_clear Hb1 as [|? ? P3 Hb2].
    inversion_clear Hb2 as [|? ? P4 Hb3]. inversion_clear Hb3 as [|? ? P5 Hb4].
    inversion_clear Hb4 as [|? ? P6 Hb5]. inversion_clear Hb5 as [|? ? P7 Hb6].
    inversion_clear Hb6 as [|? ? P8 _].
    unfold fields, decoded;
      cbn [L1 L2 R1 R2 Cross Circle Square Triangle Share Options
           LX LY RX RY].
    rewrite P2, P3, P4, P5, P6, P7, P8.
    rewrite (M9 0x40), (M9 0x80), (M9 0x01), (M9 0x02), (M9 0x08), (M9 0x10),
      (M10 0x04), (M10 0x08) by reflexivity.
    reflexivity.
Qed.

(** ** Claims that depend on the length of the frame *)

(** C2, as stated, fails: a non-garbage frame need not be long enough to
    parse.  On a ten-byte frame the first read raises [IndexError] instead of
    reporting a change, and the loop sends nothing for it. *)
Lemma short_frame_first_read_raises :
  is_garbage (firstn 10 shoulder_frame) = false /\
  snd (get_state (firstn 10 shoulder_frame) DS4_init) = Raise IndexError /\
  snd (main_step (firstn 10 shoulder_frame) DS4_init) = Raise IndexError.
Proof. repeat split; vm_compute; reflexivity. Qed.

(** C2, amended: for the same non-empty, non-garbage frame read twice in a
    row, whatever its length the second read returns [False], leaves the
    object as the first read left it, and the loop sends nothing.  The first
    read returns [False] and sends nothing when the baseline already was
    that frame; otherwise, with at least eleven bytes it returns [True] and
    the loop sends the calls of the decoded state, and with fewer than eleven
    bytes it raises [IndexError] and nothing is sent. *)
Theorem same_frame_twice (s : DS4) (frame : bytearray) :
  frame <> [] ->
  is_garbage frame = false ->
  (get_state frame (fst (get_state frame s)) =
     (fst (get_state frame s), Ok false) /\
   main_step frame (fst (get_state frame s)) =
     (fst (get_state frame s), Ok [])) /\
  (_previous_state s = Bytes frame ->
   snd (get_state frame s) = Ok false /\
   main_step frame s = (fst (get_state frame s), Ok [])) /\
  (_previous_state s <> Bytes frame -> (11 <= length frame)%nat ->
   snd (get_state frame s) = Ok true /\
   main_step frame s =
     (fst (get_state frame s), Ok (simulate_input (fst (get_state frame s))))) /\
  (_previous_state s <> Bytes frame -> (length frame < 11)%nat ->
   snd (get_state frame s) = Raise IndexError /\
   main_step frame s = (fst (get_state frame s), Raise IndexError)).
Proof.
  intros Hne Hg. split; [|split; [|split]].
  - pose proof (get_state_again s frame Hne) as E. split; [exact E|].
    now rewrite main_step_get_state, E.
  - intros Hp. rewrite main_step_get_state.
    rewrite (get_state_nonempty s frame Hne), Hg.
    rewrite (proj2 (py_ne_false _ _) Hp). split; reflexivity.
  - intros Hp Hl. rewrite main_step_get_state.
    rewrite (get_state_readable s frame (or_intror Hl)), Hg.
    rewrite (proj2 (py_ne_true _ _) Hp). split; reflexivity.
  - intros Hp Hl. rewrite main_step_get_state.
    rewrite (get_state_nonempty s frame Hne), Hg.
    rewrite (proj2 (py_ne_true _ _) Hp).
    destruct (parse_state_short
                (set_previous_state (Bytes frame) (set_state_vec frame s))
                frame eq_refl Hl) as (s' & E & _).
    rewrite E. split; reflexivity.
Qed.

Lemma same_frame_twice_witness :
  (get_state idle_frame (fst (get_state idle_frame DS4_init)) =
     (fst (get_state idle_frame DS4_init), Ok false) /\
   main_step idle_frame (fst (get_state idle_frame DS4_init)) =
     (fst (get_state idle_frame DS4_init), Ok [])) /\
  (snd (get_state idle_frame DS4_init) = Ok true /\
   main_step idle_frame DS4_init =
     (fst (get_state idle_frame DS4_init),
      Ok (simulate_input (fst (get_state idle_frame DS4_init))))) /\
  (snd (get_state [xc8] DS4_init) = Raise IndexError /\
   main_step [xc8] DS4_init = (fst (get_state [xc8] DS4_init),
                               Raise IndexError)).
Proof.
  split; [|split].
  - apply (same_frame_twice DS4_init idle_frame); [discriminate|reflexivity].
  - apply (same_frame_twice DS4_init idle_frame);
      [discriminate | reflexivity | discriminate | simpl; lia].
  - apply (same_frame_twice DS4_init [xc8]);
      [discriminate | reflexivity | discriminate | simpl; lia].
Defined.

(** C8, as stated, fails: a first non-garbage frame of three bytes is stored
    as the baseline, but [get_state] then raises [IndexError]: no change is
    returned and no field is decoded. *)
Lemma first_short_frame_raises :
  _previous_state DS4_init = EmptyStr /\
  is_garbage [xc8; x01; x02] = false /\
  get_state [xc8; x01; x02] DS4_init =
    (set_previous_state (Bytes [xc8; x01; x02])
                        (set_state_vec [xc8; x01; x02] DS4_init),
     Raise IndexError) /\
  fields (fst (get_state [xc8; x01; x02] DS4_init)) = fields DS4_init.
Proof. repeat split. Qed.

(** C8, amended: with no baseline yet ([_previous_state] still the initial
    [""]), a non-empty, non-garbage frame always counts as different and
    becomes the baseline.  With at least eleven bytes [get_state] returns
    [True] and the fields are those decoded from the frame; with fewer it
    raises [IndexError] after the baseline has been replaced. *)
Theorem first_frame_changed (s : DS4) (frame : bytearray) :
  _previous_state s = EmptyStr ->
  frame <> [] ->
  is_garbage frame = false ->
  _previous_state (fst (get_state frame s)) = Bytes frame /\
  ((11 <= length frame)%nat ->
   get_state frame s =
     (decoded frame (set_previous_state (Bytes frame) (set_state_vec frame s)),
      Ok true) /\
   fields (fst (get_state frame s)) = fields (decoded frame s)) /\
  ((length frame < 11)%nat -> snd (get_state frame s) = Raise IndexError).
Proof.
  intros Hp Hne Hg. split; [|split].
  - rewrite (proj2 (get_state_after s frame Hne)). now rewrite Hg.
  - intros Hl. rewrite (get_state_readable s frame (or_intror Hl)), Hg, Hp.
    split; reflexivity.
  - intros Hl. rewrite (get_state_nonempty s frame Hne), Hg, Hp. simpl py_ne.
    cbv iota.
    destruct (parse_state_short
                (set_previous_state (Bytes frame) (set_state_vec frame s))
                frame eq_refl Hl) as (s' & E & _).
    now rewrite E.
Qed.

Lemma first_frame_changed_witness :
  _previous_state (fst (get_state idle_frame DS4_init)) = Bytes idle_frame /\
  (get_state idle_frame DS4_init =
     (decoded idle_frame
        (set_previous_state (Bytes idle_frame)
                            (set_state_vec idle_frame DS4_init)),
      Ok true) /\
   fields (fst (get_state idle_frame DS4_init)) =
     fields (decoded idle_frame DS4_init)) /\
  snd (get_state [xc8; x01; x02] DS4_init) = Raise IndexError.
Proof.
  split; [|split].
  - apply (first_frame_changed DS4_init idle_frame);
      [reflexivity | discriminate | reflexivity].
  - apply (first_frame_changed DS4_init idle_frame);
      [reflexivity | discriminate | reflexivity | simpl; lia].
  - apply (first_frame_changed DS4_init [xc8; x01; x02]);
      [reflexivity | discriminate | reflexivity | simpl; lia].
Defined.

(** C6, as stated, fails: the only tests [get_state] makes before decoding
    are on the first byte and on the baseline.  A ten-byte frame passes
    them, and [parse_state] raises [IndexError] at [data[10]], leaving Share,
    Options and the sticks unassigned. *)
Lemma accepted_frame_not_decoded :
  is_garbage (firstn 10 stick_frame) = false /\
  py_ne (_previous_state DS4_init) (firstn 10 stick_frame) = true /\
  parse_state (set_previous_state (Bytes (firstn 10 stick_frame))
                 (set_state_vec (firstn 10 stick_frame) DS4_init)) =
    (half_decoded (firstn 10 stick_frame)
       (set_previous_state (Bytes (firstn 10 stick_frame))
          (set_state_vec (firstn 10 stick_frame) DS4_init)),
     Raise IndexError) /\
  snd (get_state (firstn 10 stick_frame) DS4_init) = Raise IndexError.
Proof. repeat split. Qed.

(** C6, amended: decoding is total exactly on frames of at least eleven
    bytes, a length the code does not check.  On the object holding a frame,
    [parse_state] returns normally if and only if the frame has at least
    eleven bytes; it then gives every controller field its value, the values
    depend on the first eleven bytes only (indices 0..10 are all it reads),
    and [get_state] does not raise on the frame if it is not garbage.  On a
    shorter frame [parse_state] raises [IndexError]. *)
Theorem decoding_total (s : DS4) (frame : bytearray) :
  (snd (parse_state (set_state_vec frame s)) = Ok tt <->
   (11 <= length frame)%nat) /\
  ((11 <= length frame)%nat ->
   parse_state (set_state_vec frame s) =
     (decoded frame (set_state_vec frame s), Ok tt) /\
   fields (decoded frame s) = fields (decoded (firstn 11 frame) s) /\
   (is_garbage frame = false ->
    exists s' changed, get_state frame s = (s', Ok changed))) /\
  ((length frame < 11)%nat ->
   snd (parse_state (set_state_vec frame s)) = Raise IndexError).
Proof.
  assert (Hshort : (length frame < 11)%nat ->
            snd (parse_state (set_state_vec frame s)) = Raise IndexError).
  { intros Hl.
    destruct (parse_state_short (set_state_vec frame s) frame eq_refl Hl)
      as (s' & E & _).
    now rewrite E. }
  split; [|split].
  - split.
    + intros H. destruct (le_lt_dec 11 (length frame)) as [Hl|Hl]; [exact Hl|].
      rewrite (Hshort Hl) in H. discriminate.
    + intros Hl.
      now rewrite (parse_state_decoded (set_state_vec frame s) frame eq_refl Hl).
  - intros Hl. split; [|split].
    + now apply parse_state_decoded.
    + unfold fields, decoded. now rewrite !byte_at_firstn by lia.
    + intros Hg. rewrite (get_state_readable s frame (or_intror Hl)), Hg.
      destruct (py_ne _ frame); eauto.
  - exact Hshort.
Qed.

Lemma decoding_total_witness :
  (parse_state (set_state_vec idle_frame DS4_init) =
     (decoded idle_frame (set_state_vec idle_frame DS4_init), Ok tt) /\
   fields (decoded idle_frame DS4_init) =
     fields (decoded (firstn 11 idle_frame) DS4_init) /\
   (is_garbage idle_frame = false ->
    exists s' changed, get_state idle_frame DS4_init = (s', Ok changed))) /\
  snd (parse_state (set_state_vec [xc8] DS4_init)) = Raise IndexError.
Proof.
  split.
  - apply (decoding_total DS4_init idle_frame). simpl. lia.
  - apply (decoding_total DS4_init [xc8]). simpl. lia.
Defined.

(** ** Properties of the constants and of [get_state] *)

(** The twelve [DS4_BUTTONS] constants are distinct single bits between bit 4
    and bit 15: different buttons have different values that share no bit. *)
Theorem button_flags_disjoint (a b : DS4_BUTTONS) :
  a <> b ->
  DS4_BUTTONS_value a <> DS4_BUTTONS_value b /\
  Z.land (DS4_BUTTONS_value a) (DS4_BUTTONS_value b) = 0 /\
  (exists k, 4 <= k <= 15 /\ DS4_BUTTONS_value a = 2 ^ k).
Proof.
  intros Hab. split; [|split].
  - destruct a, b; try (now elim Hab); discriminate.
  - destruct a, b; try (now elim Hab); reflexivity.
  - destruct a;
      [exists 15|exists 14|exists 13|exists 12|exists 11|exists 10
      |exists 9|exists 8|exists 7|exists 6|exists 5|exists 4];
      (split; [lia | reflexivity]).
Qed.

Lemma button_flags_disjoint_witness :
  DS4_BUTTONS_value DS4_BUTTON_CROSS <> DS4_BUTTONS_value DS4_BUTTON_SQUARE /\
  Z.land (DS4_BUTTONS_value DS4_BUTTON_CROSS)
         (DS4_BUTTONS_value DS4_BUTTON_SQUARE) = 0 /\
  (exists k, 4 <= k <= 15 /\ DS4_BUTTONS_value DS4_BUTTON_CROSS = 2 ^ k).
Proof.
  apply (button_flags_disjoint DS4_BUTTON_CROSS DS4_BUTTON_SQUARE).
  discriminate.
Defined.

(** Reading any frame that has a first byte a second time, whatever its
    length and whatever the first read did (returned or raised), returns
    [False], changes nothing in the object, and makes the loop send
    nothing. *)
Theorem get_state_idempotent (s : DS4) (frame : bytearray) :
  frame <> [] ->
  get_state frame (fst (get_state frame s)) =
    (fst (get_state frame s), Ok false) /\
  main_step frame (fst (get_state frame s)) = (fst (get_state frame s), Ok []).
Proof.
  intros Hne. pose proof (get_state_again s frame Hne) as E.
  split; [exact E|]. now rewrite main_step_get_state, E.
Qed.

Lemma get_state_idempotent_witness :
  get_state [xc8] (fst (get_state [xc8] DS4_init)) =
    (fst (get_state [xc8] DS4_init), Ok false) /\
  main_step [xc8] (fst (get_state [xc8] DS4_init)) =
    (fst (get_state [xc8] DS4_init), Ok []).
Proof. apply (get_state_idempotent DS4_init [xc8]). discriminate. Defined.

(** A garbage frame leaves no trace on what follows: the next [get_state],
    on any frame, gives the same result and the same object as if the
    garbage frame had never been read. *)
Theorem garbage_frame_transparent (s : DS4) (g frame : bytearray) :
  is_garbage g = true ->
  get_state frame (fst (get_state g s)) = get_state frame s.
Proof.
  intros Hg.
  rewrite (get_state_nonempty s g (is_garbage_nonempty g Hg)), Hg.
  reflexivity.
Qed.

Lemma garbage_frame_transparent_witness :
  get_state idle_frame (fst (get_state garbage_frame DS4_init)) =
  get_state idle_frame DS4_init.
Proof.
  apply (garbage_frame_transparent DS4_init garbage_frame idle_frame).
  reflexivity.
Defined.

(** A frame of fewer than eleven bytes that is not garbage and differs from
    the baseline leaves a torn object behind the [IndexError]: with exactly
    ten bytes L1, L2, R1, R2, Cross, Circle, Square and Triangle are already
    those of the frame while Share, Options and the sticks are the old ones;
    with nine bytes or fewer no field has changed.  In both cases the frame
    is already the baseline. *)
Theorem short_frame_torn (s : DS4) (frame : bytearray) :
  frame <> [] ->
  is_garbage frame = false ->
  _previous_state s <> Bytes frame ->
  (length frame < 11)%nat ->
  get_state frame s =
    (if Nat.eqb (length frame) 10
     then half_decoded frame
            (set_previous_state (Bytes frame) (set_state_vec frame s))
     else set_previous_state (Bytes frame) (set_state_vec frame s),
     Raise IndexError).
Proof.
  intros Hne Hg Hp Hl.
  rewrite (get_state_nonempty s frame Hne), Hg.
  rewrite (proj2 (py_ne_true _ _) Hp).
  destruct (Nat.eqb_spec (length frame) 10) as [E|E].
  - now rewrite (parse_state_ten
                   (set_previous_state (Bytes frame) (set_state_vec frame s))
                   frame eq_refl E).
  - rewrite (parse_state_le9
               (set_previous_state (Bytes frame) (set_state_vec frame s))
               frame eq_refl); [reflexivity | lia].
Qed.

Lemma short_frame_torn_witness :
  get_state (firstn 10 shoulder_frame) DS4_init =
    (half_decoded (firstn 10 shoulder_frame)
       (set_previous_state (Bytes (firstn 10 shoulder_frame))
          (set_state_vec (firstn 10 shoulder_frame) DS4_init)),
     Raise IndexError).
Proof.
  apply (short_frame_torn DS4_init (firstn 10 shoulder_frame)).
  - discriminate.
  - reflexivity.
  - discriminate.
  - simpl. lia.
Defined.

(** ** Properties of [parse_state] *)

(** After [parse_state] on a frame of at least eleven bytes, LX, LY, RX and
    RY are the four consecutive ten-bit groups of bytes 2..6 read as one
    40-bit big-endian number: no bit of those bytes is lost or used twice. *)
Theorem sticks_are_packed_bytes (s : DS4) (data : bytearray) :
  _state_vec s = Some data ->
  (11 <= length data)%nat ->
  LX (fst (parse_state s)) * 2 ^ 30 + LY (fst (parse_state s)) * 2 ^ 20 +
  RX (fst (parse_state s)) * 2 ^ 10 + RY (fst (parse_state s)) =
  byte_at data 2 * 2 ^ 32 + byte_at data 3 * 2 ^ 24 +
  byte_at data 4 * 2 ^ 16 + byte_at data 5 * 2 ^ 8 + byte_at data 6.
Proof.
  intros Hv Hl. rewrite (parse_state_decoded s data Hv Hl).
  apply decoded_sticks_packed.
Qed.

Lemma sticks_are_packed_bytes_witness :
  LX (fst (parse_state (set_state_vec stick_frame DS4_init))) * 2 ^ 30 +
  LY (fst (parse_state (set_state_vec stick_frame DS4_init))) * 2 ^ 20 +
  RX (fst (parse_state (set_state_vec stick_frame DS4_init))) * 2 ^ 10 +
  RY (fst (parse_state (set_state_vec stick_frame DS4_init))) =
  byte_at stick_frame 2 * 2 ^ 32 + byte_at stick_frame 3 * 2 ^ 24 +
  byte_at stick_frame 4 * 2 ^ 16 + byte_at stick_frame 5 * 2 ^ 8 +
  byte_at stick_frame 6.
Proof.
  apply (sticks_are_packed_bytes (set_state_vec stick_frame DS4_init)
                                 stick_frame).
  - reflexivity.
  - simpl. lia.
Defined.

(** Two frames of at least eleven bytes are parsed to the same fourteen
    fields exactly when they agree on bytes 2..8, on bits 0, 1, 3, 4, 6, 7 of
    byte 9 (mask [0xdb]) and on bits 2, 3 of byte 10 (mask [0x0c]); bytes 0
    and 1, the other bits of bytes 9 and 10, and everything from byte 11 on
    never reach a field. *)
Theorem same_fields_iff (s s' : DS4) (f g : bytearray) :
  (11 <= length f)%nat ->
  (11 <= length g)%nat ->
  fields (fst (parse_state (set_state_vec f s))) =
  fields (fst (parse_state (set_state_vec g s'))) <->
  Forall (fun i => byte_at f i = byte_at g i) [2; 3; 4; 5; 6; 7; 8]%nat /\
  Z.land (byte_at f 9) 0xdb = Z.land (byte_at g 9) 0xdb /\
  Z.land (byte_at f 10) 0x0c = Z.land (byte_at g 10) 0x0c.
Proof.
  intros Hf Hg.
  rewrite (parse_state_decoded (set_state_vec f s) f eq_refl Hf).
  rewrite (parse_state_decoded (set_state_vec g s') g eq_refl Hg).
  apply decoded_same_fields.
Qed.

Lemma same_fields_iff_witness :
  fields (fst (parse_state (set_state_vec idle_frame DS4_init))) =
  fields (fst (parse_state (set_state_vec idle_frame' DS4_init))) <->
  Forall (fun i => byte_at idle_frame i = byte_at idle_frame' i)
         [2; 3; 4; 5; 6; 7; 8]%nat /\
  Z.land (byte_at idle_frame 9) 0xdb = Z.land (byte_at idle_frame' 9) 0xdb /\
  Z.land (byte_at idle_frame 10) 0x0c = Z.land (byte_at idle_frame' 10) 0x0c.
Proof.
  apply (same_fields_iff DS4_init DS4_init idle_frame idle_frame').
  - simpl. lia.
  - simpl. lia.
Defined.

(** ** Properties of [simulate_input] after a change *)

(** A frame that differs from the previous one only where [simulate_input]
    does not look (triggers in bytes 7 and 8, shoulder bits 6 and 7 of byte
    9, bytes 0, 1 and 11 on) is still reported as a change, and the loop
    sends again exactly the calls the previous frame stands for. *)
Theorem unseen_change_resends (s : DS4) (f g : bytearray) :
  (11 <= length f)%nat -> is_garbage f = false ->
  (11 <= length g)%nat -> is_garbage g = false ->
  f <> g ->
  Forall (fun i => byte_at f i = byte_at g i) [2; 3; 4; 5; 6]%nat ->
  Z.land (byte_at f 9) 0x1b = Z.land (byte_at g 9) 0x1b ->
  Z.land (byte_at f 10) 0x0c = Z.land (byte_at g 10) 0x0c ->
  snd (main_step g (fst (get_state f s))) =
    Ok (simulate_input (decoded f DS4_init)).
Proof.
  intros Hlf Hgf Hlg Hgg Hne Hb H9 H10.
  assert (Hp : _previous_state (fst (get_state f s)) = Bytes f).
  { rewrite (proj2 (get_state_after s f
                      (fun E => ltac:(subst; simpl in Hlf; lia)))).
    now rewrite Hgf. }
  rewrite main_step_get_state.
  rewrite (get_state_readable _ g (or_intror Hlg)), Hgg, Hp.
  assert (Hneq : py_ne (Bytes f) g = true)
    by (apply py_ne_true; congruence).
  rewrite Hneq. simpl snd. f_equal.
  assert (M9 : forall m, Z.land 0x1b m = m ->
            Z.land (byte_at f 9) m = Z.land (byte_at g 9) m).
  { intros m Hm. rewrite <- Hm, !Z.land_assoc. now rewrite H9. }
  assert (M10 : forall m, Z.land 0x0c m = m ->
            Z.land (byte_at f 10) m = Z.land (byte_at g 10) m).
  { intros m Hm. rewrite <- Hm, !Z.land_assoc. now rewrite H10. }
  inversion_clear Hb as [|? ? P2 Hb1]. inversion_clear Hb1 as [|? ? P3 Hb2].
  inversion_clear Hb2 as [|? ? P4 Hb3]. inversion_clear Hb3 as [|? ? P5 Hb4].
  inversion_clear Hb4 as [|? ? P6 _].
  unfold simulate_input, decoded;
    cbn [Cross Circle Square Triangle Share Options LX LY RX RY].
  rewrite P2, P3, P4, P5, P6.
  rewrite (M9 0x01), (M9 0x02), (M9 0x08), (M9 0x10), (M10 0x04), (M10 0x08)
    by reflexivity.
  reflexivity.
Qed.

Lemma unseen_change_resends_witness :
  snd (main_step shoulder_frame (fst (get_state idle_frame DS4_init))) =
    Ok (simulate_input (decoded idle_frame DS4_init)).
Proof.
  apply (unseen_change_resends DS4_init idle_frame shoulder_frame).
  - simpl. lia.
  - reflexivity.
  - simpl. lia.
  - reflexivity.
  - discriminate.
  - repeat (apply Forall_cons; [reflexivity|]). apply Forall_nil.
  - reflexivity.
  - reflexivity.
Defined.

(** ** Properties of a whole run of [main] *)

(** Whatever frames the reads return, at every stop of a run the buttons are
    0 or 1, the triggers lie in 0..255 and the sticks in 0..1023, also after
    an [IndexError] that left the fields half assigned. *)
Theorem run_fields_in_range (first : bytearray) (reads : list bytearray) :
  fields_in_range (fst (fst (main first reads))).
Proof.
  rewrite main_get_state.
  pose proof (fields_in_range_get_state DS4_init first fields_in_range_init)
    as H.
  destruct (get_state first DS4_init) as [s [b|e]]; simpl in H.
  - now apply (main_loop_preserves fields_in_range
                 (fun frame s0 => fields_in_range_get_state s0 frame)).
  - exact H.
Qed.

(** Whatever frames the reads return, the baseline of a run is either still
    the initial [""] or a frame with a first byte other than the sentinel:
    an empty or garbage frame is never compared against. *)
Theorem run_baseline_ok (first : bytearray) (reads : list bytearray) :
  baseline_ok (fst (fst (main first reads))).
Proof.
  rewrite main_get_state.
  pose proof (baseline_ok_get_state DS4_init first I) as H.
  destruct (get_state first DS4_init) as [s [b|e]]; simpl in H.
  - now apply (main_loop_preserves baseline_ok
                 (fun frame s0 => baseline_ok_get_state s0 frame)).
  - exact H.
Qed.

(** Whatever frames the reads return, every stick call of a run has both
    coordinates in [0, 2): a stick is never sent a negative coordinate. *)
Theorem run_sticks_in_range (first : bytearray) (reads : list bytearray) :
  Forall stick_in_range (snd (fst (main first reads))).
Proof.
  rewrite main_get_state.
  pose proof (fields_in_range_get_state DS4_init first fields_in_range_init)
    as H.
  destruct (get_state first DS4_init) as [s [b|e]]; simpl in H.
  - now apply main_loop_sticks.
  - apply Forall_nil.
Qed.

(** A run over readable frames (garbage, or at least eleven bytes) never
    raises, and the gamepad receives, in order, the calls for each frame that
    is not garbage and differs from the last frame that was not garbage.
    The frame read by [connect] only sets the baseline: it is never sent. *)
Theorem run_on_readable_frames (first : bytearray) (reads : list bytearray) :
  readable first ->
  Forall readable reads ->
  exists s,
    main first reads =
      (s,
       flat_map (fun frame => simulate_input (decoded frame DS4_init))
                (changed_frames
                   (if is_garbage first then EmptyStr else Bytes first) reads),
       None).
Proof.
  intros Hf Hr. rewrite main_get_state.
  rewrite (get_state_readable DS4_init first Hf).
  destruct (is_garbage first).
  - exact (main_loop_readable reads (set_state_vec first DS4_init) Hr).
  - simpl py_ne. cbv iota.
    exact (main_loop_readable reads
             (decoded first
                (set_previous_state (Bytes first)
                                    (set_state_vec first DS4_init))) Hr).
Qed.

Lemma run_on_readable_frames_witness :
  exists s,
    main idle_frame [idle_frame; garbage_frame; stick_frame; stick_frame] =
      (s,
       flat_map (fun frame => simulate_input (decoded frame DS4_init))
                (changed_frames
                   (if is_garbage idle_frame then EmptyStr
                    else Bytes idle_frame)
                   [idle_frame; garbage_frame; stick_frame; stick_frame]),
       None).
Proof.
  apply (run_on_readable_frames idle_frame
           [idle_frame; garbage_frame; stick_frame; stick_frame]).
  - right. simpl. lia.
  - repeat apply Forall_cons; try apply Forall_nil; right; simpl; lia.
Defined.

(** While the controller keeps sending the frame [connect] read, with any
    garbage frames in between, the gamepad receives nothing at all, not even
    the initial state, and the run does not raise. *)
Theorem idle_run_sends_nothing (first : bytearray) (reads : list bytearray) :
  (11 <= length first)%nat ->
  is_garbage first = false ->
  Forall (fun f => f = first \/ is_garbage f = true) reads ->
  exists s, main first reads = (s, [], None).
Proof.
  intros Hl Hg Hall. rewrite main_get_state.
  rewrite (get_state_readable DS4_init first (or_intror Hl)), Hg.
  simpl py_ne. cbv iota.
  assert (Hr : Forall readable reads).
  { eapply Forall_impl; [|exact Hall]. intros f [->|H]; [now right|now left]. }
  destruct (main_loop_readable reads
              (decoded first
                 (set_previous_state (Bytes first)
                                     (set_state_vec first DS4_init))) Hr)
    as [s' E].
  rewrite E. simpl _previous_state.
  rewrite (changed_frames_idle first reads Hall). now exists s'.
Qed.

Lemma idle_run_sends_nothing_witness :
  exists s,
    main idle_frame [idle_frame; garbage_frame; idle_frame] = (s, [], None).
Proof.
  apply (idle_run_sends_nothing idle_frame
           [idle_frame; garbage_frame; idle_frame]).
  - simpl. lia.
  - reflexivity.
  - repeat apply Forall_cons; try apply Forall_nil;
      try (left; reflexivity). right. reflexivity.
Defined.

(** A run can only end with [IndexError], never with [AttributeError]
    ([parse_state] is reached only after [_state_vec] is set); and an empty
    frame anywhere among the reads does end it with [IndexError]. *)
Theorem run_raises_only_index_error
  (first : bytearray) (reads : list bytearray) :
  (forall e, snd (main first reads) = Some e -> e = IndexError) /\
  (In [] (first :: reads) -> snd (main first reads) = Some IndexError).
Proof.
  rewrite main_get_state.
  pose proof (get_state_raises DS4_init first) as Hr.
  destruct (get_state first DS4_init) as [s [b|e]] eqn:E; simpl in *.
  - split.
    + intros e. apply main_loop_raises.
    + intros [Hin|Hin].
      * rewrite Hin, get_state_empty in E. discriminate.
      * now apply main_loop_empty_read.
  - rewrite (Hr e eq_refl). split; [congruence | reflexivity].
Qed.

Lemma run_raises_only_index_error_witness :
  snd (main idle_frame [stick_frame; []; idle_frame]) = Some IndexError.
Proof.
  apply (run_raises_only_index_error idle_frame [stick_frame; []; idle_frame]).
  simpl. auto.
Defined.

(** The calls of a run are whole emissions, at most one per read of the
    loop: the gamepad is never left with calls that no [update] follows. *)
Theorem run_emissions_whole (first : bytearray) (reads : list bytearray) :
  exists states,
    snd (fst (main first reads)) = flat_map simulate_input states /\
    (length states <= length reads)%nat /\
    (snd (fst (main first reads)) = [] \/
     exists pre, snd (fst (main first reads)) = pre ++ [update]).
Proof.
  rewrite main_get_state.
  destruct (get_state first DS4_init) as [s [b|e]].
  - destruct (main_loop_emissions reads s) as (states & E & Hl).
    exists states. rewrite E. repeat split; [exact Hl|].
    apply emissions_end.
  - exists []. simpl. repeat split; [lia | now left].
Qed.

(** ** Properties of [__str__] *)

Lemma one_line_digits (d : Decimal.uint) :
  Printing.one_line (DecimalString.NilEmpty.string_of_uint d) = true.
Proof. induction d; simpl; auto. Qed.

Lemma one_line_uint (d : Decimal.uint) :
  Printing.one_line (DecimalString.NilZero.string_of_uint d) = true.
Proof.
  unfold DecimalString.NilZero.string_of_uint.
  destruct d; try reflexivity; apply one_line_digits.
Qed.

Lemma one_line_str_int (z : Z) : Printing.one_line (Printing.str_int z) = true.
Proof.
  unfold Printing.str_int, DecimalString.NilZero.string_of_int.
  destruct (Z.to_int z) as [d|d].
  - apply one_line_uint.
  - change (true && Printing.one_line
                      (DecimalString.NilZero.string_of_uint d) = true).
    now rewrite one_line_uint.
Qed.

Lemma str_int_inj (a b : Z) : Printing.str_int a = Printing.str_int b -> a = b.
Proof.
  unfold Printing.str_int. intros H. apply DecimalZ.to_int_inj.
  assert (N : forall z, Z.to_int z <> Decimal.Pos Decimal.Nil /\
                        Z.to_int z <> Decimal.Neg Decimal.Nil).
  { intros z. split; intros E; pose proof (f_equal Z.of_int E) as E';
      rewrite DecimalZ.of_to in E'; simpl in E'; subst z;
      vm_compute in E; discriminate E. }
  apply (f_equal DecimalString.NilZero.int_of_string) in H.
  rewrite !DecimalString.NilZero.isi in H by apply N.
  congruence.
Qed.

(** Two texts that each continue after their first line feed agree on the
    first line and on the rest. *)
Lemma split_at_LF (a a' r r' : String.string) :
  Printing.one_line a = true -> Printing.one_line a' = true ->
  String.append a (String.String Printing.LF r) =
  String.append a' (String.String Printing.LF r') ->
  a = a' /\ r = r'.
Proof.
  revert a'. induction a as [|c a IH]; intros [|c' a']; simpl; intros Ha Ha' H.
  - injection H as ->. auto.
  - injection H as <- _. rewrite Ascii.eqb_refl in Ha'. discriminate.
  - injection H as -> _. rewrite Ascii.eqb_refl in Ha. discriminate.
  - injection H as -> H. apply andb_true_iff in Ha, Ha'.
    destruct (IH a' (proj2 Ha) (proj2 Ha') H) as [-> ->]. auto.
Qed.

#[local] Arguments Printing.str_int : simpl never.

Ltac peel_line H :=
  simpl in H; injection H as H;
  apply split_at_LF in H; [|apply one_line_str_int..];
  let E := fresh "E" in destruct H as [E H]; apply str_int_inj in E.

(** The text [__str__] builds shows the fourteen fields and nothing else:
    two objects print alike exactly when their fields are equal. *)
Theorem str_shows_fields (s s' : DS4) :
  Printing.__str__ s = Printing.__str__ s' <-> fields s = fields s'.
Proof.
  split.
  - unfold Printing.__str__. intros H.
    do 13 peel_line H.
    simpl in H. injection H as H. apply str_int_inj in H.
    unfold fields. congruence.
  - intros H. apply fields_eq_inv in H.
    destruct H as ((E1 & E2 & E3 & E4) & (E5 & E6 & E7 & E8 & E9 & E10) &
                   (E11 & E12 & E13 & E14)).
    unfold Printing.__str__. congruence.
Qed.

(** ** The fields follow the baseline *)

Lemma last_cons {A} (a d : A) (l : list A) : last (a :: l) d = last l a.
Proof.
  revert a d. induction l as [|b l IH]; intros a d; [reflexivity|].
  change (last (a :: b :: l) d) with (last (b :: l) d).
  now rewrite !IH.
Qed.

Lemma main_loop_follows (reads : list bytearray) (s : DS4) (p : bytearray) :
  Forall readable reads ->
  _previous_state s = Bytes p ->
  fields s = fields (decoded p DS4_init) ->
  let kept := last (filter (fun f => negb (is_garbage f)) reads) p in
  _previous_state (fst (fst (main_loop reads s))) = Bytes kept /\
  fields (fst (fst (main_loop reads s))) = fields (decoded kept DS4_init).
Proof.
  intros Hall. revert s p.
  induction Hall as [|frame rest Hr _ IH]; intros s p Hp Hf; simpl.
  - auto.
  - rewrite main_step_get_state, (get_state_readable s frame Hr).
    destruct (is_garbage frame) eqn:Eg; simpl negb; cbv iota.
    + specialize (IH (set_state_vec frame s) p Hp Hf).
      destruct (main_loop rest (set_state_vec frame s)) as [[s' tr] e].
      exact IH.
    + rewrite last_cons.
      destruct (py_ne (_previous_state s) frame) eqn:En.
      * specialize (IH (decoded frame
                          (set_previous_state (Bytes frame)
                                              (set_state_vec frame s)))
                       frame eq_refl eq_refl).
        destruct (main_loop rest _) as [[s' tr] e]. exact IH.
      * apply py_ne_false in En. rewrite Hp in En. injection En as ->.
        specialize (IH (set_state_vec frame s) frame Hp Hf).
        destruct (main_loop rest (set_state_vec frame s)) as [[s' tr] e].
        exact IH.
Qed.

(** On a run over readable frames that starts with a frame that is not
    garbage, the baseline at the end is the last frame read that was not
    garbage, and the fourteen fields are exactly what that frame decodes
    to: fields and baseline never drift apart. *)
Theorem run_fields_follow_baseline
  (first : bytearray) (reads : list bytearray) :
  (11 <= length first)%nat ->
  is_garbage first = false ->
  Forall readable reads ->
  let kept := last (filter (fun f => negb (is_garbage f)) reads) first in
  _previous_state (fst (fst (main first reads))) = Bytes kept /\
  fields (fst (fst (main first reads))) = fields (decoded kept DS4_init).
Proof.
  intros Hl Hg Hall. rewrite main_get_state.
  rewrite (get_state_readable DS4_init first (or_intror Hl)), Hg.
  simpl py_ne. cbv iota.
  apply (main_loop_follows reads _ first Hall); reflexivity.
Qed.

Lemma run_fields_follow_baseline_witness :
  _previous_state
    (fst (fst (main idle_frame [stick_frame; garbage_frame]))) =
    Bytes stick_frame /\
  fields (fst (fst (main idle_frame [stick_frame; garbage_frame]))) =
    fields (decoded stick_frame DS4_init).
Proof.
  apply (run_fields_follow_baseline idle_frame [stick_frame; garbage_frame]).
  - simpl. lia.
  - reflexivity.
  - repeat apply Forall_cons; try apply Forall_nil; right; simpl; lia.
Defined.
